(** * Cypress driver: stack_utils.js

    A shallow embedding of [packages/driver/src/cypress/stack_utils.js]
    and proofs about its stack splitting, source mapping, reconstruction
    and normalisation functions.

    JavaScript strings are sequences of UTF-16 code units; they are
    modelled as lists of code units ([N]).  Line and column numbers are
    doubles that hold integers; such a number is modelled by its
    integer ([Z]), [x + 1] rounds as the double sum does, and [NaN] is
    added where the code can produce it ([undefined + 1]).  A thrown
    exception is an explicit [Throw] result. *)

From Stdlib Require Import List Bool Arith ZArith NArith Lia.
From Stdlib Require Import Ascii.
From Stdlib Require String DecimalString.
Import ListNotations String.StringSyntax.
Delimit Scope string_scope with string.

(** ** Strings *)

Module JsString.

Definition char := N.
Definition jsstring := list char.

(** A string literal of the source, as code units. *)
Definition str (s : String.string) : jsstring :=
  map N_of_ascii (String.list_ascii_of_string s).
Arguments str s%_string.

Definition LF : char := 10%N.

Definition char_eqb (a b : char) : bool := N.eqb a b.
Arguments char_eqb (a b)%_N.

Fixpoint string_eqb (a b : jsstring) : bool :=
  match a, b with
  | [], [] => true
  | x :: a', y :: b' => char_eqb x y && string_eqb a' b'
  | _, _ => false
  end.

(** [s.split(sep)] for a one-character separator. *)
Fixpoint split (sep : char) (s : jsstring) : list jsstring :=
  match s with
  | [] => [[]]
  | c :: s' =>
      if char_eqb c sep then [] :: split sep s'
      else match split sep s' with
           | [] => [[c]]
           | l :: ls => (c :: l) :: ls
           end
  end.

(** [a.join(sep)] for a one-character separator. *)
Fixpoint join (sep : char) (ls : list jsstring) : jsstring :=
  match ls with
  | [] => []
  | [l] => l
  | l :: ls' => l ++ sep :: join sep ls'
  end.

(** [s.startsWith(p)], used to define [includes] and [indexOf]. *)
Fixpoint starts_with (p s : jsstring) : bool :=
  match p, s with
  | [], _ => true
  | _ :: _, [] => false
  | x :: p', y :: s' => char_eqb x y && starts_with p' s'
  end.

(** [s.includes(sub)]. *)
Fixpoint includes (s sub : jsstring) : bool :=
  starts_with sub s ||
  match s with
  | [] => false
  | _ :: s' => includes s' sub
  end.

(** [s.indexOf(sub)]: the first index at which [sub] occurs, or -1. *)
Fixpoint indexOf (s sub : jsstring) : Z :=
  if starts_with sub s then 0%Z
  else match s with
       | [] => (-1)%Z
       | _ :: s' =>
           let i := indexOf s' sub in
           if (i <? 0)%Z then (-1)%Z else (i + 1)%Z
       end.

(** [s.slice(0, e)]: a negative end counts from the end of the string,
    and the end is clamped to the length. *)
Definition slice0 (s : jsstring) (e : Z) : jsstring :=
  let len := Z.of_nat (length s) in
  let final := if (e <? 0)%Z then Z.max (len + e) 0 else Z.min e len in
  firstn (Z.to_nat final) s.

(** [s.endsWith(p)]. *)
Definition ends_with (p s : jsstring) : bool :=
  (length p <=? length s) && string_eqb (skipn (length s - length p) s) p.

(** The decimal digits of an integer, with a minus sign when it is
    negative. *)
Definition decimal (z : Z) : jsstring :=
  str (DecimalString.NilZero.string_of_int (Z.to_int z)).

End JsString.
Import JsString.

(** ** Regular expressions

    The two patterns of the file that are used through [test] are
    embedded as syntax trees and run by a backtracking matcher in
    continuation-passing style, the way ECMAScript specifies matching.
    The matcher state is the number of code units consumed so far and
    the rest of the input. *)

Module Regex.

Inductive regex :=
| Empty
| Class (p : char -> bool)
| Seq (r1 r2 : regex)
| Alt (r1 r2 : regex)
| Star (r : regex)
| Bol
| Eol.

Definition Lit (c : char) : regex := Class (char_eqb c).
Arguments Lit c%_N.
Definition Opt (r : regex) : regex := Alt r Empty.
Definition Plus (r : regex) : regex := Seq r (Star r).

Definition cont := nat -> jsstring -> bool.

(** A greedy star: try the body, then the rest of the pattern.  An
    iteration that consumes nothing is rejected, as in ECMAScript, so
    [length s] iterations are enough. *)
Fixpoint star_loop (body : nat -> jsstring -> cont -> bool) (k : cont)
    (fuel : nat) (i : nat) (s : jsstring) : bool :=
  match fuel with
  | O => k i s
  | S fuel' =>
      if body i s (fun i' s' => if i' =? i then false
                                else star_loop body k fuel' i' s')
      then true
      else k i s
  end.

Fixpoint matchr (r : regex) (i : nat) (s : jsstring) (k : cont) : bool :=
  match r with
  | Empty => k i s
  | Class p =>
      match s with
      | c :: s' => if p c then k (S i) s' else false
      | [] => false
      end
  | Seq r1 r2 => matchr r1 i s (fun i' s' => matchr r2 i' s' k)
  | Alt r1 r2 => if matchr r1 i s k then true else matchr r2 i s k
  | Star r1 => star_loop (matchr r1) k (length s) i s
  | Bol => if i =? 0 then k i s else false
  | Eol => match s with [] => k i s | _ :: _ => false end
  end.

(** [re.test(s)] for a pattern without the global or sticky flag: a
    match is looked for at every start index, from 0 on. *)
Definition test (r : regex) (s : jsstring) : bool :=
  existsb (fun i => matchr r i (skipn i s) (fun _ _ => true))
          (seq 0 (S (length s))).

(** Character classes. *)
Definition in_range (lo hi c : char) : bool := (lo <=? c)%N && (c <=? hi)%N.
Arguments in_range (lo hi c)%_N.

(** ECMAScript LineTerminator: LF, CR, U+2028, U+2029. *)
Definition isLineTerminator (c : char) : bool :=
  char_eqb c 10 || char_eqb c 13 || char_eqb c 8232 || char_eqb c 8233.

(** [\s]: WhiteSpace and LineTerminator. *)
Definition isWhiteSpace (c : char) : bool :=
  in_range 9 13 c || char_eqb c 32 || char_eqb c 160 || char_eqb c 5760
  || in_range 8192 8202 c || char_eqb c 8232 || char_eqb c 8233
  || char_eqb c 8239 || char_eqb c 8287 || char_eqb c 12288
  || char_eqb c 65279.

(** [\d] *)
Definition isDigit (c : char) : bool := in_range 48 57 c.

(** [.] without the dotAll flag. *)
Definition isDot (c : char) : bool := negb (isLineTerminator c).

Fixpoint Str (s : jsstring) : regex :=
  match s with
  | [] => Empty
  | c :: s' => Seq (Lit c) (Str s')
  end.

Fixpoint seqs (rs : list regex) : regex :=
  match rs with
  | [] => Empty
  | r :: rs' => Seq r (seqs rs')
  end.

End Regex.
Import Regex.

(** [const stackLineRegex = /^\s*(at )?.*@?\(?.*\:\d+\:\d+\)?$/] *)
Definition stackLineRegex : regex :=
  seqs [ Bol; Star (Class isWhiteSpace); Opt (Str (str "at "));
         Star (Class isDot); Opt (Lit 64); Opt (Lit 40);
         Star (Class isDot); Lit 58; Plus (Class isDigit);
         Lit 58; Plus (Class isDigit); Opt (Lit 41); Eol ].

(** [const functionExtrasRegex = /(\/<|<\/<)$/]: the pattern is only
    used by [replace], which removes the leftmost match; a match has to
    end at the end of the string, so the three-character alternative
    wins when both fit. *)
Definition strip_functionExtras (s : jsstring) : jsstring :=
  if ends_with (str "</<") s then firstn (length s - 3) s
  else if ends_with (str "/<") s then firstn (length s - 2) s
  else s.

(** ** Values and exceptions *)

Inductive number := Num (z : Z) | NaN.

Inductive value :=
| VUndefined
| VNull
| VBool (b : bool)
| VNumber (n : number)
| VString (s : jsstring)
| VObject.

(** ToBoolean *)
Definition truthy (v : value) : bool :=
  match v with
  | VUndefined | VNull => false
  | VBool b => b
  | VNumber (Num z) => negb (z =? 0)%Z
  | VNumber NaN => false
  | VString s => match s with [] => false | _ :: _ => true end
  | VObject => true
  end.

Definition truthy_string (o : option jsstring) : bool :=
  match o with
  | Some (_ :: _) => true
  | _ => false
  end.

Inductive exn := TypeError.

Inductive result (A : Type) :=
| Ok (a : A)
| Throw (e : exn).
Arguments Ok {A} a.
Arguments Throw {A} e.

Definition bind {A B} (m : result A) (f : A -> result B) : result B :=
  match m with
  | Ok a => f a
  | Throw e => Throw e
  end.

Notation "x <- m ;; k" := (bind m (fun x => k))
  (at level 61, m at next level, right associativity).

(** [_.map] with a callback that can throw: left to right, the first
    exception ends the loop. *)
Fixpoint mapM {A B} (f : A -> result B) (l : list A) : result (list B) :=
  match l with
  | [] => Ok []
  | a :: l' => b <- f a ;; bs <- mapM f l' ;; Ok (b :: bs)
  end.

(** 2^53: every integer up to it in magnitude is a double; from there
    to 2^54 the doubles are the even integers, then the multiples of
    4, and so on. *)
Definition two53 : Z := 9007199254740992.

(** [Number.isSafeInteger] *)
Definition isSafeInteger (z : Z) : Prop := (Z.abs z < two53)%Z.

(** [x + 1] on a double that holds an integer, rounded to the nearest
    double with ties going to the even significand.  The sum is exact
    from -2^53 to 2^53 - 1.  Up to 2^54 in magnitude it lies half way
    between [x] and the next even integer, and the one whose half is
    even wins.  From 2^54 on it rounds back to [x]. *)
Definition double_add1 (z : Z) : Z :=
  if (- two53 <=? z)%Z && (z <? two53)%Z then (z + 1)%Z
  else if (Z.abs z <? 2 * two53)%Z then
    if Z.even (Z.abs z / 2) then z else (z + 2)%Z
  else z.

(** [x + 1] for a number that may be undefined. *)
Definition add1 (x : option Z) : number :=
  match x with
  | Some z => Num (double_add1 z)
  | None => NaN
  end.

(** ** Records *)

(** A frame as the error-stack-parser package returns it. *)
Module StackFrame.
Record t := mk {
  functionName : option jsstring;
  fileName : option jsstring;
  lineNumber : option Z;
  columnNumber : option Z
}.
End StackFrame.

(** [{ line, column, file, function }] *)
Module Details.
Record t := mk {
  line : option Z;
  column : option Z;
  file : option jsstring;
  function : jsstring
}.
End Details.

(** What [getSourcePosition] returns when it finds a position. *)
Module Position.
Record t := mk {
  file : jsstring;
  line : Z;
  column : Z
}.
End Position.

Module Frame.
Record t := mk {
  function : jsstring;
  fileUrl : option jsstring;
  relativeFile : option jsstring;
  absoluteFile : jsstring;
  line : option Z;
  column : number;
  whitespace : jsstring
}.
End Frame.

Inductive ParsedLine :=
| MessageLine (message whitespace : jsstring)
| FrameLine (f : Frame.t).

Module CodeFrame.
Record t := mk {
  line : option Z;
  column : number;
  relativeFile : option jsstring;
  absoluteFile : jsstring;
  frame : jsstring;
  language : option jsstring
}.
End CodeFrame.

Module Err.
Record t := mk {
  name : jsstring;
  message : jsstring;
  stack : value;
  codeFrame : option CodeFrame.t;
  parsedStack : option (list ParsedLine)
}.

Definition set_stack (e : t) (v : value) : t :=
  mk (name e) (message e) v (codeFrame e) (parsedStack e).

(** [Error.prototype.toString] *)
Definition toString (e : t) : jsstring :=
  match name e, message e with
  | [], m => m
  | n, [] => n
  | n, m => n ++ str ": " ++ m
  end.
End Err.

(** What [getSourceStack] returns. *)
Inductive SourceStack :=
| EmptyObject
| Mapped (parsed : list ParsedLine) (sourceMapped : jsstring).

(** ** splitStack *)

Record memo := mkMemo {
  messageEnded : bool;
  memo0 : list jsstring;
  memo1 : list jsstring
}.

Definition splitStack_step (m : memo) (line : jsstring) : memo :=
  if messageEnded m || test stackLineRegex line
  then mkMemo true (memo0 m) (memo1 m ++ [line])
  else mkMemo (messageEnded m) (memo0 m ++ [line]) (memo1 m).

Definition splitLines (lines : list jsstring)
  : list jsstring * list jsstring :=
  let m := fold_left splitStack_step lines (mkMemo false [] []) in
  (memo0 m, memo1 m).

(** [stack.split] exists on strings only. *)
Definition splitStack (stack : value)
  : result (list jsstring * list jsstring) :=
  match stack with
  | VString s => Ok (splitLines (split LF s))
  | _ => Throw TypeError
  end.

(** The line classifier of [splitStack] and [parseLine]. *)
Definition isFrameLine (line : jsstring) : bool := test stackLineRegex line.

(** White space, a body, then [:n1:n2] and a closing text. *)
Definition positionLine (ws body n1 n2 close : jsstring) : jsstring :=
  ws ++ body ++ str ":" ++ n1 ++ str ":" ++ n2 ++ close.

(** A line that ends with [:digits:digits] and an optional [")"]. *)
Definition ends_with_position (line : jsstring) : Prop :=
  exists pre n1 n2 close,
    line = pre ++ str ":" ++ n1 ++ str ":" ++ n2 ++ close /\
    n1 <> [] /\ forallb isDigit n1 = true /\
    n2 <> [] /\ forallb isDigit n2 = true /\
    (close = [] \/ close = str ")").

(** [getWhitespace] returns group 1 of [whitespaceRegex] (anchored at
    the start: a captured greedy run of white space, then a run of
    other characters), which is the longest prefix of white space. *)
Fixpoint leading (p : char -> bool) (s : jsstring) : jsstring :=
  match s with
  | c :: s' => if p c then c :: leading p s' else []
  | [] => []
  end.

Definition getWhitespace (line : jsstring) : jsstring :=
  match line with
  | [] => []
  | _ => leading isWhiteSpace line
  end.

Definition cleanFunctionName (functionName : option jsstring) : jsstring :=
  match functionName with
  | None => str "<unknown>"
  | Some f => strip_functionExtras f
  end.

(** [line.indexOf(marker) > -1] *)
Definition mentions (marker line : jsstring) : bool :=
  (indexOf line marker >? -1)%Z.

(** [s.replace('.', '')]: the first full stop is removed. *)
Fixpoint remove_first_dot (s : jsstring) : jsstring :=
  match s with
  | [] => []
  | c :: s' => if char_eqb c 46 then s' else c :: remove_first_dot s'
  end.

(** ** Sample collaborators

    Concrete stand-ins for the required packages, used to run the
    functions on concrete stacks. *)

(** [path.join] on two relative segments. *)
Definition sample_join (a b : jsstring) : jsstring := a ++ str "/" ++ b.

(** A resolver without source maps: it finds no position. *)
Definition no_mapping (file : option jsstring) (d : Details.t)
  : option Position.t := None.

(** A resolver that maps every position to [spec.js:5:1]. *)
Definition map_to_spec (file : option jsstring) (d : Details.t)
  : option Position.t := Some (Position.mk (str "spec.js") 5 1).

(** What error-stack-parser returns for ["at foo (file.js:1:2)"]. *)
Definition frame_foo : StackFrame.t :=
  StackFrame.mk (Some (str "foo")) (Some (str "file.js")) (Some 1%Z)
                (Some 2%Z).

(** What error-stack-parser returns for ["at foo (bundle.js:10:3)"]. *)
Definition frame_bundle : StackFrame.t :=
  StackFrame.mk (Some (str "foo")) (Some (str "bundle.js")) (Some 10%Z)
                (Some 3%Z).

(** A parser that is only asked about one frame line. *)
Definition parse_as (f : StackFrame.t) (line : jsstring)
  : result (option StackFrame.t) := Ok (Some f).


(** A stand-in for the text of numbers above 2^53; the examples print
    none. *)
Definition sample_large_text (z : Z) : jsstring := str "1e+21".

Definition sample_stack : jsstring :=
  join LF [ str "Error: boom"; str "  more of the message";
            str "  at foo (file.js:1:2)"; str "not a frame";
            str "  at bar (file.js:3:4)" ].

(** The parsed frame of ["at Context.eval (bundle.js:10:3)"]. *)
Definition details_eval : Details.t :=
  Details.mk (Some 10%Z) (Some 3%Z) (Some (str "bundle.js"))
             (str "Context.eval").

(** A line that ends with [:1:2] and has a carriage return in it. *)
Definition line_with_CR : jsstring := str "a" ++ 13%N :: str "b:1:2".

Definition two_lines : jsstring :=
  join LF [ str "Error: boom"; str "  at foo (file.js:1:2)" ].

Definition plain_error : Err.t :=
  Err.mk (str "Error") (str "boom") VUndefined None None.

Definition empty_error : Err.t := Err.mk [] [] VUndefined None None.

(** An error of Chromium: the stack begins with the error text. *)
Definition chromium_error : Err.t :=
  Err.mk (str "Error") (str "boom")
         (VString (join LF [ str "Error: boom";
                             str "  at foo (cypress://runner/file.js:1:2)";
                             str "  at bar (http://localhost/app.js:3:4)" ]))
         None None.

(** A new stack text whose second frame line is the helper's. *)
Definition stack_with_marker : jsstring :=
  join LF [ str "ignored message";
            str "  at foo (file.js:1:2)";
            str "  at __getSpecFrameStack (driver.js:9:9)";
            str "  at bar (file.js:3:4)" ].

(** A mapped frame entry and an error that carries it. *)
Definition frame_spec : Frame.t :=
  Frame.mk (str "foo") (Some (str "bundle.js")) (Some (str "spec.js"))
           (str "project/spec.js") (Some 5%Z) (Num 2) (str "  ").

Definition parsed_error : Err.t :=
  Err.mk (str "Error") (str "boom") VUndefined None
         (Some [MessageLine (str "Error: boom") []; FrameLine frame_spec]).

Definition message_only_error : Err.t :=
  Err.mk (str "Error") (str "boom") VUndefined None
         (Some [MessageLine (str "Error: boom") []]).

(** Stand-ins for the source reader, the frame renderer and
    [path.extname]. *)
Definition sample_contents (fileUrl : jsstring) (relativeFile : option jsstring)
  : option jsstring := Some (str "it('works')").

Definition sample_columns (src : jsstring) (line : option Z) (column : number)
  : jsstring := str "> " ++ src.

Definition sample_extname (p : jsstring) : jsstring := str ".js".

Definition sample_lower (s : jsstring) : jsstring := s.

(** ** The functions of the file

    The packages and the sibling module the file requires are taken as
    parameters: [errorStackParser.parse({ stack: line })[0]],
    [$sourceMapUtils.getSourcePosition],
    [$sourceMapUtils.getSourceContents], [codeFrameColumns],
    [path.join], [path.extname] and [String.prototype.toLowerCase].
    The stack parser can raise (its frame constructor rejects a line
    or column that is not a finite number), so it returns a [result].
    [path.join] and [path.extname] throw a TypeError when an argument
    is not a string; that check is written out below.  The text of a
    number above 2^53 (the shortest digits that give the double back,
    in exponent form from 1e21 on) is a parameter as well. *)

Section StackUtils.

Variable errorStackParser_parse : jsstring -> result (option StackFrame.t).
Variable getSourcePosition : option jsstring -> Details.t -> option Position.t.
Variable getSourceContents : jsstring -> option jsstring -> option jsstring.
Variable codeFrameColumns : jsstring -> option Z -> number -> jsstring.
Variable path_join : jsstring -> jsstring -> jsstring.
Variable path_extname : jsstring -> jsstring.
Variable toLowerCase : jsstring -> jsstring.
Variable numberToString_large : Z -> jsstring.

(** Template-literal text of a number that holds an integer: all its
    digits up to 2^53. *)
Definition number_text (z : Z) : jsstring :=
  if (Z.abs z <=? two53)%Z then decimal z else numberToString_large z.

Definition show_number (n : number) : jsstring :=
  match n with
  | Num z => number_text z
  | NaN => str "NaN"
  end.

Definition show_int (x : option Z) : jsstring :=
  match x with
  | Some z => number_text z
  | None => str "undefined"
  end.

Definition reconstructLine (parsedLine : ParsedLine) : jsstring :=
  match parsedLine with
  | MessageLine message whitespace => whitespace ++ message
  | FrameLine f =>
      Frame.whitespace f ++ str "at " ++ Frame.function f ++ str " ("
      ++ (if truthy_string (Frame.relativeFile f)
          then match Frame.relativeFile f with Some p => p | None => [] end
          else str "<unknown>")
      ++ str ":" ++ show_int (Frame.line f)
      ++ str ":" ++ show_number (Frame.column f) ++ str ")"
  end.

Definition reconstructStack (parsedStack : list ParsedLine) : jsstring :=
  join LF (map reconstructLine parsedStack).


Definition getLanguageFromExtension (filePath : option jsstring)
  : result (option jsstring) :=
  match filePath with
  | None => Throw TypeError
  | Some p =>
      match remove_first_dot (toLowerCase (path_extname p)) with
      | [] => Ok None
      | l => Ok (Some l)
      end
  end.

Definition getCodeFrameFromSource (sourceCode : option jsstring)
    (f : Frame.t) : result (option CodeFrame.t) :=
  if negb (truthy_string sourceCode) then Ok None
  else
    let src := match sourceCode with Some s => s | None => [] end in
    let frame := codeFrameColumns src (Frame.line f) (Frame.column f) in
    match frame with
    | [] => Ok None
    | _ =>
        language <- getLanguageFromExtension (Frame.relativeFile f) ;;
        Ok (Some (CodeFrame.mk (Frame.line f) (Frame.column f)
                    (Frame.relativeFile f) (Frame.absoluteFile f)
                    frame language))
    end.

(** [!!line.fileUrl] *)
Definition has_fileUrl (l : ParsedLine) : bool :=
  match l with
  | MessageLine _ _ => false
  | FrameLine f => truthy_string (Frame.fileUrl f)
  end.

Definition getCodeFrame (err : Err.t) : result (option CodeFrame.t) :=
  match Err.codeFrame err with
  | Some cf => Ok (Some cf)
  | None =>
      let firstStackLine :=
        match Err.parsedStack err with
        | Some ls => find has_fileUrl ls
        | None => None
        end in
      match firstStackLine with
      | Some (FrameLine f) =>
          match Frame.fileUrl f with
          | Some fileUrl =>
              getCodeFrameFromSource
                (getSourceContents fileUrl (Frame.relativeFile f)) f
          | None => Ok None
          end
      | _ => Ok None
      end
  end.

Definition getSourceDetails (generatedDetails : Details.t) : Details.t :=
  match getSourcePosition (Details.file generatedDetails) generatedDetails with
  | None => generatedDetails
  | Some sourceDetails =>
      let fn := Details.function generatedDetails in
      let fn := if string_eqb fn (str "Context.eval")
                then str "Test.run" else fn in
      Details.mk (Some (Position.line sourceDetails))
                 (Some (Position.column sourceDetails))
                 (Some (Position.file sourceDetails))
                 fn
  end.

Definition parseLine (line : jsstring) : result (option Details.t) :=
  if negb (test stackLineRegex line) then Ok None
  else
    first <- errorStackParser_parse line ;;
    match first with
    | None => Ok None
    | Some parsed =>
        Ok (Some
              (Details.mk (StackFrame.lineNumber parsed)
                          (StackFrame.columnNumber parsed)
                          (StackFrame.fileName parsed)
                          (cleanFunctionName
                             (StackFrame.functionName parsed))))
    end.

Definition path_join_checked (a : value) (b : option jsstring)
  : result jsstring :=
  match a, b with
  | VString a', Some b' => Ok (path_join a' b')
  | _, _ => Throw TypeError
  end.

Definition getSourceDetailsForLine (projectRoot : value) (line : jsstring)
  : result ParsedLine :=
  let whitespace := getWhitespace line in
  parsed <- parseLine line ;;
  match parsed with
  | None => Ok (MessageLine line whitespace)
  | Some generatedDetails =>
      let sourceDetails := getSourceDetails generatedDetails in
      absoluteFile <-
        path_join_checked projectRoot (Details.file sourceDetails) ;;
      Ok (FrameLine
            (Frame.mk (Details.function sourceDetails)
                      (Details.file generatedDetails)
                      (Details.file sourceDetails)
                      absoluteFile
                      (Details.line sourceDetails)
                      (add1 (Details.column sourceDetails))
                      whitespace))
  end.

Definition getSourceStack (stack projectRoot : value) : result SourceStack :=
  match stack with
  | VString s =>
      parsed <- mapM (getSourceDetailsForLine projectRoot) (split LF s) ;;
      Ok (Mapped parsed (reconstructStack parsed))
  | _ => Ok EmptyObject
  end.

(** [err.stack || ''], then a string method is called on it. *)
Definition stack_or_empty (v : value) : result jsstring :=
  if truthy v then
    match v with
    | VString s => Ok s
    | _ => Throw TypeError
    end
  else Ok [].

(** A character other than the newline. *)
Definition notLF (c : char) : bool := negb (char_eqb LF c).

Definition firstLine (s : jsstring) : jsstring :=
  slice0 s (indexOf s [LF]).

Definition normalizeStack (err : Err.t) : result Err.t :=
  let errString := Err.toString err in
  errStack <- stack_or_empty (Err.stack err) ;;
  let firstErrLine := firstLine errString in
  let firstStackLine := firstLine errStack in
  let stackIncludesMsg := includes firstStackLine firstErrLine in
  if negb stackIncludesMsg
  then Ok (Err.set_stack err (VString (errString ++ LF :: errStack)))
  else Ok err.

Definition replaceStack (err : Err.t) (newStack : value) : result Err.t :=
  if negb (truthy (Err.stack err)) then Ok err
  else
    let errString := Err.toString err in
    split2 <- splitStack newStack ;;
    let stackLines := snd split2 in
    let relevantStackLines :=
      filter (fun line => negb (mentions (str "__getSpecFrameStack") line))
             stackLines in
    Ok (Err.set_stack err
          (VString (join LF (errString :: relevantStackLines)))).

Definition hasStack (err : Err.t) : result bool :=
  if negb (truthy (Err.stack err)) then Ok false
  else
    split2 <- splitStack (Err.stack err) ;;
    Ok (negb (length (snd split2) =? 0)).

(** [firstStackLine && firstStackLine.indexOf('cypress://') > -1] *)
Definition isFromCypress (err : Err.t) : result value :=
  split2 <- splitStack (Err.stack err) ;;
  match snd split2 with
  | [] => Ok VUndefined
  | firstStackLine :: _ =>
      if truthy (VString firstStackLine)
      then Ok (VBool (mentions (str "cypress://") firstStackLine))
      else Ok (VString firstStackLine)
  end.

(** The one format in which the reconstruction prints a frame. *)
Definition frameText (whitespace function file : jsstring) (line column : Z)
  : jsstring :=
  whitespace ++ str "at " ++ function ++ str " (" ++ file
  ++ str ":" ++ decimal line ++ str ":" ++ decimal column ++ str ")".

(** A line the parser does not raise on, and for which it gives, when
    the line is a frame, a file name that is not empty and a line and
    a column that are safe integers. *)
Definition well_parsed (line : jsstring) : Prop :=
  match parseLine line with
  | Ok None => True
  | Ok (Some g) =>
      exists file l c,
        Details.file g = Some file /\ file <> [] /\
        Details.line g = Some l /\ isSafeInteger l /\
        Details.column g = Some c /\ isSafeInteger c
  | Throw _ => False
  end.

(** The reconstruction of one line: a message line that does not begin
    with white space comes back as it is, a frame line comes back in
    the one output format with its column plus one.  Nothing is said
    of a message line that begins with white space. *)
Definition roundtrip_line (line out : jsstring) : Prop :=
  match parseLine line with
  | Ok None => getWhitespace line = [] -> out = line
  | Ok (Some g) =>
      exists file l c,
        Details.file g = Some file /\
        Details.line g = Some l /\
        Details.column g = Some c /\
        out = frameText (getWhitespace line) (Details.function g) file
                        l (c + 1)
  | Throw _ => False
  end.

(** How an entry of a parsed stack relates to the line it was made
    from. *)
Definition parsed_from (projectRoot : value) (line : jsstring)
    (parsedLine : ParsedLine) : Prop :=
  match parsedLine with
  | MessageLine message whitespace =>
      message = line /\ whitespace = getWhitespace line /\
      parseLine line = Ok None
  | FrameLine f =>
      exists g root file,
        parseLine line = Ok (Some g) /\
        projectRoot = VString root /\
        Frame.fileUrl f = Details.file g /\
        Frame.relativeFile f = Some file /\
        Frame.absoluteFile f = path_join root file /\
        Frame.whitespace f = getWhitespace line
  end.

(** The message entry [getSourceDetailsForLine] makes of a line. *)
Definition messageEntry (line : jsstring) : ParsedLine :=
  MessageLine line (getWhitespace line).

(** ** Strings: lemmas *)

Lemma char_eqb_eq (a b : char) : char_eqb a b = true <-> a = b.
Proof. unfold char_eqb. apply N.eqb_eq. Qed.

Lemma char_eqb_refl (a : char) : char_eqb a a = true.
Proof. apply char_eqb_eq. reflexivity. Qed.

Lemma string_eqb_eq (a b : jsstring) : string_eqb a b = true <-> a = b.
Proof.
  revert b. induction a as [|x a IH]; intros [|y b]; simpl;
    try (split; [discriminate | congruence]); try tauto.
  rewrite andb_true_iff, char_eqb_eq, IH.
  split; [intros [-> ->]; reflexivity | intros H; inversion H; auto].
Qed.

Lemma split_not_nil (sep : char) (s : jsstring) : split sep s <> [].
Proof.
  destruct s as [|c s]; simpl; [discriminate|].
  destruct (char_eqb c sep); [discriminate|].
  destruct (split sep s); discriminate.
Qed.

Lemma join_cons (sep : char) (l : jsstring) (ls : list jsstring) :
  ls <> [] -> join sep (l :: ls) = l ++ sep :: join sep ls.
Proof. destruct ls; [congruence | reflexivity]. Qed.

(** Joining the pieces of a split gives the string back. *)
Lemma join_split (sep : char) (s : jsstring) : join sep (split sep s) = s.
Proof.
  induction s as [|c s IH]; [reflexivity|].
  simpl split. destruct (char_eqb c sep) eqn:E.
  - apply char_eqb_eq in E. subst c.
    rewrite join_cons by apply split_not_nil. rewrite IH. reflexivity.
  - pose proof (split_not_nil sep s) as Hn.
    destruct (split sep s) as [|l ls]; [congruence|].
    destruct ls as [|l' ls].
    + simpl in *. congruence.
    + change (join sep ((c :: l) :: l' :: ls))
        with (c :: join sep (l :: l' :: ls)).
      rewrite IH. reflexivity.
Qed.

Lemma split_app_sep (sep : char) (l rest : jsstring) :
  ~ In sep l -> split sep (l ++ sep :: rest) = l :: split sep rest.
Proof.
  induction l as [|c l IH]; intros Hn; simpl.
  - rewrite char_eqb_refl. reflexivity.
  - destruct (char_eqb c sep) eqn:E.
    + apply char_eqb_eq in E. subst. exfalso. apply Hn. left. reflexivity.
    + rewrite IH; [reflexivity|]. intros H. apply Hn. right. exact H.
Qed.

Lemma split_no_sep (sep : char) (l : jsstring) :
  ~ In sep l -> split sep l = [l].
Proof.
  induction l as [|c l IH]; intros Hn; simpl; [reflexivity|].
  destruct (char_eqb c sep) eqn:E.
  - apply char_eqb_eq in E. subst. exfalso. apply Hn. left. reflexivity.
  - rewrite IH; [reflexivity|]. intros H. apply Hn. right. exact H.
Qed.

(** Splitting a join of separator-free lines gives the lines back. *)
Lemma split_join (sep : char) (ls : list jsstring) :
  ls <> [] -> Forall (fun l => ~ In sep l) ls ->
  split sep (join sep ls) = ls.
Proof.
  induction ls as [|l ls IH]; [congruence|]. intros _ HF.
  inversion HF as [|? ? Hl Hls]; subst.
  destruct ls as [|l' ls]; [apply split_no_sep; exact Hl|].
  rewrite join_cons by discriminate.
  rewrite split_app_sep by exact Hl.
  rewrite IH; [reflexivity | discriminate | exact Hls].
Qed.

(** A string has one line more than it has separators. *)
Lemma length_split (sep : char) (s : jsstring) :
  length (split sep s) = S (length (filter (char_eqb sep) s)).
Proof.
  induction s as [|c s IH]; [reflexivity|]. simpl.
  replace (char_eqb sep c) with (char_eqb c sep)
    by (unfold char_eqb; apply N.eqb_sym).
  destruct (char_eqb c sep); simpl.
  - rewrite IH. reflexivity.
  - pose proof (split_not_nil sep s).
    destruct (split sep s); [congruence|]. simpl in *. exact IH.
Qed.

(** ** splitStack: lemmas *)

Lemma step_frame (m : memo) (l : jsstring) :
  messageEnded m = true \/ isFrameLine l = true ->
  splitStack_step m l = mkMemo true (memo0 m) (memo1 m ++ [l]).
Proof.
  unfold splitStack_step, isFrameLine. intros [H | H]; rewrite H;
    [reflexivity | rewrite orb_true_r; reflexivity].
Qed.

Lemma step_message (m : memo) (l : jsstring) :
  messageEnded m = false -> isFrameLine l = false ->
  splitStack_step m l = mkMemo false (memo0 m ++ [l]) (memo1 m).
Proof.
  unfold splitStack_step, isFrameLine. intros H1 H2. rewrite H1, H2.
  reflexivity.
Qed.

Lemma fold_split_ended (lines msgs frames : list jsstring) :
  fold_left splitStack_step lines (mkMemo true msgs frames)
  = mkMemo true msgs (frames ++ lines).
Proof.
  revert frames. induction lines as [|l lines IH]; intros frames; simpl.
  - rewrite app_nil_r. reflexivity.
  - rewrite step_frame by (left; reflexivity). simpl.
    rewrite IH, <- app_assoc. reflexivity.
Qed.

Lemma fold_split_message (pre rest msgs : list jsstring) :
  Forall (fun l => isFrameLine l = false) pre ->
  fold_left splitStack_step (pre ++ rest) (mkMemo false msgs [])
  = fold_left splitStack_step rest (mkMemo false (msgs ++ pre) []).
Proof.
  revert msgs. induction pre as [|l pre IH]; intros msgs HF; simpl.
  - rewrite app_nil_r. reflexivity.
  - inversion HF as [|? ? Hl Hpre]; subst.
    rewrite step_message by (reflexivity || exact Hl). simpl.
    rewrite IH by exact Hpre. rewrite <- app_assoc. reflexivity.
Qed.

Lemma splitLines_sticky (pre post : list jsstring) (l : jsstring) :
  Forall (fun x => isFrameLine x = false) pre ->
  isFrameLine l = true ->
  splitLines (pre ++ l :: post) = (pre, l :: post).
Proof.
  intros Hpre Hl. unfold splitLines.
  rewrite fold_split_message by exact Hpre. simpl.
  rewrite step_frame by (right; exact Hl). simpl.
  rewrite fold_split_ended. reflexivity.
Qed.

Lemma splitLines_all_messages (lines : list jsstring) :
  Forall (fun x => isFrameLine x = false) lines ->
  splitLines lines = (lines, []).
Proof.
  intros H. unfold splitLines.
  pose proof (fold_split_message lines [] [] H) as E.
  rewrite app_nil_r in E. rewrite E. reflexivity.
Qed.

(** Every list of lines is cut at its first frame line. *)
Lemma first_frame_line (lines : list jsstring) :
  Forall (fun x => isFrameLine x = false) lines \/
  exists pre l post,
    lines = pre ++ l :: post /\
    Forall (fun x => isFrameLine x = false) pre /\ isFrameLine l = true.
Proof.
  induction lines as [|x lines IH]; [left; constructor|].
  destruct (isFrameLine x) eqn:E.
  - right. exists [], x, lines. repeat split; [constructor | exact E].
  - destruct IH as [H | (pre & l & post & -> & Hpre & Hl)].
    + left. constructor; assumption.
    + right. exists (x :: pre), l, post.
      repeat split; [constructor; assumption | exact Hl].
Qed.

Lemma splitLines_app (lines : list jsstring) :
  fst (splitLines lines) ++ snd (splitLines lines) = lines.
Proof.
  destruct (first_frame_line lines) as [H | (pre & l & post & -> & Hpre & Hl)].
  - rewrite splitLines_all_messages by exact H. apply app_nil_r.
  - rewrite splitLines_sticky by assumption. reflexivity.
Qed.

(** A frame line and all the lines after it end the frame lines. *)
Lemma splitLines_frame_suffix (pre post : list jsstring) (l : jsstring) :
  isFrameLine l = true ->
  exists before, snd (splitLines (pre ++ l :: post)) = before ++ l :: post.
Proof.
  intros Hl.
  destruct (first_frame_line pre) as [H | (p & x & q & -> & Hp & Hx)].
  - exists []. rewrite splitLines_sticky by assumption. reflexivity.
  - exists (x :: q). rewrite <- app_assoc, <- app_comm_cons.
    rewrite splitLines_sticky by assumption. reflexivity.
Qed.

(** ** The matcher: lemmas *)

Lemma matchr_seq (r1 r2 : regex) (i : nat) (s : jsstring) (k : cont) :
  matchr (Seq r1 r2) i s k = matchr r1 i s (fun i' s' => matchr r2 i' s' k).
Proof. reflexivity. Qed.

Lemma test_at_start (r : regex) (s : jsstring) :
  matchr r 0 s (fun _ _ => true) = true -> test r s = true.
Proof.
  intros H. unfold test. change (seq 0 (S (length s)))
    with (0 :: seq 1 (length s)).
  simpl existsb. simpl skipn. rewrite H. reflexivity.
Qed.

Lemma matchr_bol (s : jsstring) (k : cont) :
  k 0 s = true -> matchr Bol 0 s k = true.
Proof. intros H. simpl. exact H. Qed.

Lemma matchr_eol (i : nat) (k : cont) :
  k i [] = true -> matchr Eol i [] k = true.
Proof. intros H. simpl. exact H. Qed.

Lemma matchr_lit (c : char) (i : nat) (s : jsstring) (k : cont) :
  k (S i) s = true -> matchr (Lit c) i (c :: s) k = true.
Proof. intros H. simpl. rewrite char_eqb_refl. exact H. Qed.

Lemma matchr_opt_skip (r : regex) (i : nat) (s : jsstring) (k : cont) :
  k i s = true -> matchr (Opt r) i s k = true.
Proof. intros H. simpl. rewrite H. destruct (matchr r i s k); reflexivity. Qed.

Lemma matchr_opt_take (r : regex) (i : nat) (s : jsstring) (k : cont) :
  matchr r i s k = true -> matchr (Opt r) i s k = true.
Proof. intros H. simpl. rewrite H. reflexivity. Qed.

(** A starred class can stop after any prefix made of the class. *)
Lemma star_loop_class (p : char -> bool) (k : cont) (w s : jsstring) :
  forall (fuel i : nat),
    length (w ++ s) <= fuel ->
    forallb p w = true ->
    k (i + length w) s = true ->
    star_loop (matchr (Class p)) k fuel i (w ++ s) = true.
Proof.
  induction w as [|c w IH]; intros fuel i Hfuel Hw Hk.
  - simpl in *. rewrite Nat.add_0_r in Hk.
    destruct fuel; simpl; [exact Hk|]. rewrite Hk.
    match goal with |- (if ?b then _ else _) = _ => destruct b end;
      reflexivity.
  - simpl in Hw. apply andb_true_iff in Hw. destruct Hw as [Hc Hw].
    destruct fuel as [|fuel]; [simpl in Hfuel; lia|].
    change (star_loop (matchr (Class p)) k (S fuel) i ((c :: w) ++ s))
      with (if (if p c
                then if S i =? i then false
                     else star_loop (matchr (Class p)) k fuel (S i) (w ++ s)
                else false)
            then true else k i ((c :: w) ++ s)).
    rewrite Hc.
    replace (S i =? i) with false by (symmetry; apply Nat.eqb_neq; lia).
    rewrite IH; [reflexivity | simpl in Hfuel; lia | exact Hw |].
    simpl in Hk. rewrite Nat.add_succ_r in Hk. exact Hk.
Qed.

Lemma matchr_star_class (p : char -> bool) (k : cont) (w s : jsstring)
    (i : nat) :
  forallb p w = true ->
  k (i + length w) s = true ->
  matchr (Star (Class p)) i (w ++ s) k = true.
Proof.
  intros Hw Hk. simpl. apply star_loop_class; [lia | exact Hw | exact Hk].
Qed.

Lemma matchr_plus_class (p : char -> bool) (k : cont) (w s : jsstring)
    (i : nat) :
  w <> [] ->
  forallb p w = true ->
  k (i + length w) s = true ->
  matchr (Plus (Class p)) i (w ++ s) k = true.
Proof.
  intros Hn Hw Hk. destruct w as [|c w]; [congruence|].
  simpl in Hw. apply andb_true_iff in Hw. destruct Hw as [Hc Hw].
  unfold Plus. rewrite matchr_seq.
  change (matchr (Class p) i ((c :: w) ++ s)
            (fun i' s' => matchr (Star (Class p)) i' s' k))
    with (if p c then matchr (Star (Class p)) (S i) (w ++ s) k else false).
  rewrite Hc. apply matchr_star_class; [exact Hw|].
  simpl in Hk. rewrite Nat.add_succ_r in Hk. exact Hk.
Qed.

(** One step through a sequence: the head of the pattern is handled by
    the lemma, the rest becomes the continuation. *)
Ltac then_apply lem := rewrite matchr_seq; apply lem.

(** The shape the pattern accepts without using ["at "], ["@"] or
    ["("]: white space, text without line terminators, then
    [:digits:digits] and an optional [")"]. *)
Lemma stackLineRegex_position (ws body n1 n2 close : jsstring) :
  forallb isWhiteSpace ws = true ->
  forallb isDot body = true ->
  n1 <> [] -> forallb isDigit n1 = true ->
  n2 <> [] -> forallb isDigit n2 = true ->
  close = [] \/ close = str ")" ->
  test stackLineRegex
       (ws ++ body ++ str ":" ++ n1 ++ str ":" ++ n2 ++ close) = true.
Proof.
  intros Hws Hbody Hn1 Hd1 Hn2 Hd2 Hclose.
  apply test_at_start. unfold stackLineRegex. cbn [seqs].
  then_apply matchr_bol.
  then_apply matchr_star_class; [exact Hws|].
  then_apply matchr_opt_skip.
  then_apply matchr_star_class; [exact Hbody|].
  then_apply matchr_opt_skip.
  then_apply matchr_opt_skip.
  rewrite matchr_seq. apply (matchr_star_class isDot _ [] _ _ eq_refl).
  change (str ":" ++ n1 ++ str ":" ++ n2 ++ close)
    with (58%N :: n1 ++ 58%N :: n2 ++ close).
  then_apply matchr_lit.
  then_apply matchr_plus_class; [exact Hn1 | exact Hd1 |].
  then_apply matchr_lit.
  then_apply matchr_plus_class; [exact Hn2 | exact Hd2 |].
  rewrite matchr_seq.
  destruct Hclose as [-> | ->].
  - apply matchr_opt_skip. then_apply matchr_eol. reflexivity.
  - apply matchr_opt_take. apply matchr_lit.
    then_apply matchr_eol. reflexivity.
Qed.

(** Conversely, what a successful match says about the input. *)

Lemma matchr_class_inv (p : char -> bool) (i : nat) (s : jsstring)
    (k : cont) :
  matchr (Class p) i s k = true ->
  exists c s', s = c :: s' /\ p c = true /\ k (S i) s' = true.
Proof.
  destruct s as [|c s']; simpl; [discriminate|].
  destruct (p c) eqn:E; [|discriminate].
  intros H. exists c, s'. auto.
Qed.

Lemma matchr_lit_inv (c : char) (i : nat) (s : jsstring) (k : cont) :
  matchr (Lit c) i s k = true -> exists s', s = c :: s' /\ k (S i) s' = true.
Proof.
  intros H. apply matchr_class_inv in H.
  destruct H as (d & s' & -> & Hd & Hk). apply char_eqb_eq in Hd. subst d.
  exists s'. auto.
Qed.

Lemma matchr_opt_inv (r : regex) (i : nat) (s : jsstring) (k : cont) :
  matchr (Opt r) i s k = true -> matchr r i s k = true \/ k i s = true.
Proof. simpl. destruct (matchr r i s k); auto. Qed.

Lemma star_loop_class_inv (p : char -> bool) (k : cont) :
  forall (fuel i : nat) (s : jsstring),
    star_loop (matchr (Class p)) k fuel i s = true ->
    exists w s',
      s = w ++ s' /\ forallb p w = true /\ k (i + length w) s' = true.
Proof.
  induction fuel as [|fuel IH]; intros i s H.
  - exists [], s. simpl in *. rewrite Nat.add_0_r. auto.
  - cbn [star_loop] in H.
    match type of H with
    | (if ?b then _ else _) = _ => destruct b eqn:E
    end.
    + apply matchr_class_inv in E. destruct E as (c & s1 & -> & Hc & E).
      cbv beta in E. destruct (S i =? i); [discriminate|].
      apply IH in E. destruct E as (w & s' & -> & Hw & Hk).
      exists (c :: w), s'. simpl. rewrite Hc, Hw.
      rewrite Nat.add_succ_r. auto.
    + exists [], s. simpl. rewrite Nat.add_0_r. auto.
Qed.

Lemma matchr_star_class_inv (p : char -> bool) (k : cont) (i : nat)
    (s : jsstring) :
  matchr (Star (Class p)) i s k = true ->
  exists w s',
    s = w ++ s' /\ forallb p w = true /\ k (i + length w) s' = true.
Proof. apply star_loop_class_inv. Qed.

Lemma matchr_plus_class_inv (p : char -> bool) (k : cont) (i : nat)
    (s : jsstring) :
  matchr (Plus (Class p)) i s k = true ->
  exists w s',
    s = w ++ s' /\ w <> [] /\ forallb p w = true /\
    k (i + length w) s' = true.
Proof.
  unfold Plus. rewrite matchr_seq. intros H.
  apply matchr_class_inv in H. destruct H as (c & s1 & -> & Hc & H).
  apply matchr_star_class_inv in H. destruct H as (w & s' & -> & Hw & Hk).
  exists (c :: w), s'. simpl. rewrite Hc, Hw, Nat.add_succ_r.
  repeat split; auto. discriminate.
Qed.

Lemma test_bol_inv (r : regex) (s : jsstring) :
  test (Seq Bol r) s = true -> matchr r 0 s (fun _ _ => true) = true.
Proof.
  unfold test. intros H. apply existsb_exists in H.
  destruct H as (i & _ & H). rewrite matchr_seq in H. simpl in H.
  destruct i; [exact H | discriminate].
Qed.

(** The frame pattern accepts exactly the lines of that shape. *)
Lemma stackLineRegex_position_inv (line : jsstring) :
  test stackLineRegex line = true ->
  exists ws body n1 n2 close,
    line = positionLine ws body n1 n2 close /\
    forallb isWhiteSpace ws = true /\
    forallb isDot body = true /\
    n1 <> [] /\ forallb isDigit n1 = true /\
    n2 <> [] /\ forallb isDigit n2 = true /\
    (close = [] \/ close = str ")").
Proof.
  intros H. unfold stackLineRegex in H. cbn [seqs] in H.
  apply test_bol_inv in H.
  rewrite matchr_seq in H. apply matchr_star_class_inv in H.
  destruct H as (ws & s1 & -> & Hws & H).
  assert (Hat : exists pat s2,
             s1 = pat ++ s2 /\ forallb isDot pat = true /\
             exists j, matchr
               (seqs [ Star (Class isDot); Opt (Lit 64); Opt (Lit 40);
                       Star (Class isDot); Lit 58; Plus (Class isDigit);
                       Lit 58; Plus (Class isDigit); Opt (Lit 41); Eol ])
               j s2 (fun _ _ => true) = true).
  { rewrite matchr_seq in H. apply matchr_opt_inv in H. destruct H as [H|H].
    - cbn [Str str map String.list_ascii_of_string] in H.
      rewrite !matchr_seq in H.
      apply matchr_lit_inv in H. destruct H as (s2 & -> & H).
      rewrite matchr_seq in H.
      apply matchr_lit_inv in H. destruct H as (s3 & -> & H).
      rewrite matchr_seq in H.
      apply matchr_lit_inv in H. destruct H as (s4 & -> & H).
      exists (str "at "), s4. split; [reflexivity|].
      split; [reflexivity|]. eexists. exact H.
    - exists [], s1. split; [reflexivity|]. split; [reflexivity|].
      eexists. exact H. }
  clear H. destruct Hat as (pat & s2 & -> & Hpat & j & H). cbn [seqs] in H.
  rewrite matchr_seq in H. apply matchr_star_class_inv in H.
  destruct H as (b1 & s3 & -> & Hb1 & H).
  assert (Hq : exists q s4,
             s3 = q ++ s4 /\ forallb isDot q = true /\
             exists j, matchr
               (seqs [ Star (Class isDot); Lit 58; Plus (Class isDigit);
                       Lit 58; Plus (Class isDigit); Opt (Lit 41); Eol ])
               j s4 (fun _ _ => true) = true).
  { rewrite matchr_seq in H. apply matchr_opt_inv in H.
    destruct H as [H|H].
    - apply matchr_lit_inv in H. destruct H as (s4 & -> & H).
      rewrite matchr_seq in H. apply matchr_opt_inv in H.
      destruct H as [H|H].
      + apply matchr_lit_inv in H. destruct H as (s5 & -> & H).
        exists [64%N; 40%N], s5. split; [reflexivity|].
        split; [reflexivity|]. eexists. exact H.
      + exists [64%N], s4. split; [reflexivity|].
        split; [reflexivity|]. eexists. exact H.
    - rewrite matchr_seq in H. apply matchr_opt_inv in H.
      destruct H as [H|H].
      + apply matchr_lit_inv in H. destruct H as (s5 & -> & H).
        exists [40%N], s5. split; [reflexivity|].
        split; [reflexivity|]. eexists. exact H.
      + exists [], s3. split; [reflexivity|].
        split; [reflexivity|]. eexists. exact H. }
  clear H. destruct Hq as (q & s4 & -> & Hq & j' & H). cbn [seqs] in H.
  rewrite matchr_seq in H. apply matchr_star_class_inv in H.
  destruct H as (b2 & s5 & -> & Hb2 & H).
  rewrite matchr_seq in H. apply matchr_lit_inv in H.
  destruct H as (s6 & -> & H).
  rewrite matchr_seq in H. apply matchr_plus_class_inv in H.
  destruct H as (n1 & s7 & -> & Hn1 & Hd1 & H).
  rewrite matchr_seq in H. apply matchr_lit_inv in H.
  destruct H as (s8 & -> & H).
  rewrite matchr_seq in H. apply matchr_plus_class_inv in H.
  destruct H as (n2 & s9 & -> & Hn2 & Hd2 & H).
  rewrite matchr_seq in H.
  assert (Hclose : s9 = [] \/ s9 = str ")").
  { apply matchr_opt_inv in H. destruct H as [H|H].
    - apply matchr_lit_inv in H. destruct H as (s10 & -> & H).
      rewrite matchr_seq in H. simpl in H.
      destruct s10; [right; reflexivity | discriminate].
    - rewrite matchr_seq in H. simpl in H.
      destruct s9; [left; reflexivity | discriminate]. }
  exists ws, (pat ++ b1 ++ q ++ b2), n1, n2, s9.
  split.
  { unfold positionLine. rewrite <- !app_assoc. reflexivity. }
  split; [exact Hws|].
  split; [rewrite !forallb_app, Hpat, Hb1, Hq, Hb2; reflexivity|].
  repeat (split; [assumption|]). exact Hclose.
Qed.

(** X20: a line matches the frame pattern exactly when it is white
    space, then text without a line terminator, then [:digits:digits]
    and an optional [")"]; the ["at "], ["@"] and ["("] of the pattern
    change nothing. *)
Lemma isFrameLine_iff (line : jsstring) :
  isFrameLine line = true <->
  exists ws body n1 n2 close,
    line = positionLine ws body n1 n2 close /\
    forallb isWhiteSpace ws = true /\
    forallb isDot body = true /\
    n1 <> [] /\ forallb isDigit n1 = true /\
    n2 <> [] /\ forallb isDigit n2 = true /\
    (close = [] \/ close = str ")").
Proof.
  split; [apply stackLineRegex_position_inv|].
  intros (ws & body & n1 & n2 & close & -> & H1 & H2 & H3 & H4 & H5 & H6 & H7).
  apply stackLineRegex_position; assumption.
Qed.

(** ** normalizeStack: lemmas *)

Lemma indexOf_LF_cons (c : char) (s : jsstring) :
  indexOf (c :: s) [LF] =
  if char_eqb LF c then 0%Z
  else let i := indexOf s [LF] in if (i <? 0)%Z then (-1)%Z else (i + 1)%Z.
Proof. simpl. rewrite andb_true_r. reflexivity. Qed.

Lemma indexOf_LF_none (s : jsstring) :
  forallb notLF s = true -> indexOf s [LF] = (-1)%Z.
Proof.
  induction s as [|c s IH]; intros H; [reflexivity|].
  simpl in H. apply andb_true_iff in H. destruct H as [Hc Hs].
  rewrite indexOf_LF_cons. unfold notLF in Hc.
  apply negb_true_iff in Hc. rewrite Hc. cbv zeta. rewrite IH by exact Hs.
  reflexivity.
Qed.

Lemma indexOf_LF_app (a b : jsstring) :
  forallb notLF a = true ->
  indexOf (a ++ LF :: b) [LF] = Z.of_nat (length a).
Proof.
  induction a as [|c a IH]; intros H.
  - simpl app. rewrite indexOf_LF_cons, char_eqb_refl. reflexivity.
  - simpl in H. apply andb_true_iff in H. destruct H as [Hc Ha].
    change ((c :: a) ++ LF :: b) with (c :: (a ++ LF :: b)).
    rewrite indexOf_LF_cons. unfold notLF in Hc.
    apply negb_true_iff in Hc. rewrite Hc. cbv zeta. rewrite IH by exact Ha.
    destruct (Z.ltb_spec (Z.of_nat (length a)) 0); [lia|].
    simpl length. lia.
Qed.

Lemma LF_decompose (s : jsstring) :
  forallb notLF s = true \/
  exists a b, s = a ++ LF :: b /\ forallb notLF a = true.
Proof.
  induction s as [|c s IH]; [left; reflexivity|].
  destruct (char_eqb LF c) eqn:E.
  - apply char_eqb_eq in E. subst c. right. exists [], s. split; reflexivity.
  - destruct IH as [H | (a & b & -> & Ha)].
    + left. simpl. unfold notLF at 1. rewrite E. exact H.
    + right. exists (c :: a), b. split; [reflexivity|].
      simpl. unfold notLF at 1. rewrite E. exact Ha.
Qed.

Lemma firstLine_no_LF (s : jsstring) :
  forallb notLF s = true -> firstLine s = firstn (length s - 1) s.
Proof.
  intros H. unfold firstLine, slice0. rewrite indexOf_LF_none by exact H.
  change (-1 <? 0)%Z with true. cbv iota. f_equal. lia.
Qed.

Lemma firstLine_app_LF (a b : jsstring) :
  forallb notLF a = true -> firstLine (a ++ LF :: b) = a.
Proof.
  intros H. unfold firstLine, slice0. rewrite indexOf_LF_app by exact H.
  destruct (Z.ltb_spec (Z.of_nat (length a)) 0); [lia|].
  rewrite length_app. simpl length.
  replace (Z.to_nat _) with (length a + 0) by lia.
  rewrite firstn_app_2. simpl. apply app_nil_r.
Qed.

Lemma starts_with_firstn (n : nat) (s : jsstring) :
  starts_with (firstn n s) s = true.
Proof.
  revert n. induction s as [|c s IH]; intros [|n]; simpl; try reflexivity.
  rewrite char_eqb_refl. apply IH.
Qed.

Lemma starts_with_refl (s : jsstring) : starts_with s s = true.
Proof.
  induction s as [|c s IH]; simpl; [reflexivity|].
  rewrite char_eqb_refl. exact IH.
Qed.

Lemma includes_starts_with (s p : jsstring) :
  starts_with p s = true -> includes s p = true.
Proof. intros H. destruct s; simpl; rewrite H; reflexivity. Qed.

Lemma includes_nil (p : jsstring) : includes [] p = true -> p = [].
Proof. destruct p; simpl; [reflexivity | discriminate]. Qed.

(** The first line of the stack that [normalizeStack] builds contains
    the first line of the error text. *)
Lemma firstLine_prepended (errString errStack : jsstring) :
  includes (firstLine (errString ++ LF :: errStack)) (firstLine errString)
  = true.
Proof.
  apply includes_starts_with.
  destruct (LF_decompose errString) as [H | (a & b & -> & Ha)].
  - rewrite firstLine_app_LF by exact H.
    rewrite firstLine_no_LF by exact H. apply starts_with_firstn.
  - rewrite <- app_assoc. rewrite <- app_comm_cons.
    rewrite !firstLine_app_LF by exact Ha. apply starts_with_refl.
Qed.

Lemma toString_set_stack (err : Err.t) (v : value) :
  Err.toString (Err.set_stack err v) = Err.toString err.
Proof. reflexivity. Qed.

Lemma firstLine_nonempty (s : jsstring) :
  2 <= length s -> (forall rest, s <> LF :: rest) -> firstLine s <> [].
Proof.
  intros Hlen Hhd.
  destruct (LF_decompose s) as [H | (a & b & -> & Ha)].
  - rewrite firstLine_no_LF by exact H.
    destruct s as [|c [|d s]]; simpl in *; try lia. discriminate.
  - rewrite firstLine_app_LF by exact Ha.
    destruct a; [exfalso; apply (Hhd b); reflexivity | discriminate].
Qed.

(** ** splitStack *)

(** C4: [splitStack] goes through the lines from top to bottom with a
    one-way transition.  The lines before the first line that matches
    the frame pattern, none of which matches, are the message lines; the
    first matching line and every line after it, matching or not, are
    the frame lines. *)
Theorem splitStack_sticky (s : jsstring) (pre post : list jsstring)
    (l : jsstring) :
  split LF s = pre ++ l :: post ->
  Forall (fun x => isFrameLine x = false) pre ->
  isFrameLine l = true ->
  splitStack (VString s) = Ok (pre, l :: post).
Proof.
  intros Hs Hpre Hl. unfold splitStack. rewrite Hs.
  rewrite splitLines_sticky by assumption. reflexivity.
Qed.

(** C5: the message lines followed by the frame lines are the lines of
    the stack, in their order; so the two lengths add up to the number
    of lines, which is one more than the number of newlines. *)
Theorem splitStack_partition (s : jsstring) :
  exists messages frames,
    splitStack (VString s) = Ok (messages, frames) /\
    messages ++ frames = split LF s /\
    length messages + length frames = length (split LF s) /\
    length (split LF s) = S (length (filter (char_eqb LF) s)).
Proof.
  exists (fst (splitLines (split LF s))), (snd (splitLines (split LF s))).
  split; [unfold splitStack; rewrite <- surjective_pairing; reflexivity|].
  split; [apply splitLines_app|].
  split; [rewrite <- length_app, splitLines_app; reflexivity|].
  apply length_split.
Qed.

(** C9, amended: a line made of white space, then text without a line
    terminator (with or without ["@"] and ["("]), then [:digits:digits]
    and an optional [")"] matches the frame pattern, and [splitStack]
    puts it and every line after it in the frame lines. *)
Theorem position_suffix_is_frame_line
    (ws body n1 n2 close : jsstring) (s : jsstring)
    (pre post : list jsstring) :
  forallb isWhiteSpace ws = true ->
  forallb isDot body = true ->
  n1 <> [] -> forallb isDigit n1 = true ->
  n2 <> [] -> forallb isDigit n2 = true ->
  close = [] \/ close = str ")" ->
  split LF s = pre ++ positionLine ws body n1 n2 close :: post ->
  isFrameLine (positionLine ws body n1 n2 close) = true /\
  exists messages before,
    splitStack (VString s)
    = Ok (messages, before ++ positionLine ws body n1 n2 close :: post).
Proof.
  intros Hws Hbody Hn1 Hd1 Hn2 Hd2 Hclose Hs.
  assert (Hline : isFrameLine (positionLine ws body n1 n2 close) = true)
    by (apply stackLineRegex_position; assumption).
  split; [exact Hline|].
  destruct (splitLines_frame_suffix pre post _ Hline) as [before Hb].
  exists (fst (splitLines (pre ++ positionLine ws body n1 n2 close :: post))),
         before.
  unfold splitStack. rewrite Hs. apply f_equal.
  apply injective_projections; [reflexivity | exact Hb].
Qed.

(** ** normalizeStack and replaceStack *)

Lemma stack_or_empty_string (s : jsstring) :
  stack_or_empty (VString s) = Ok s.
Proof. destruct s; reflexivity. Qed.

Lemma stack_or_empty_falsy (v : value) :
  truthy v = false -> stack_or_empty v = Ok [].
Proof. intros H. unfold stack_or_empty. rewrite H. reflexivity. Qed.

(** C6: [normalizeStack] is idempotent on errors with a string stack:
    a second call returns the error the first call returned. *)
Theorem normalizeStack_idempotent (err : Err.t) (s : jsstring) :
  Err.stack err = VString s ->
  exists err1,
    normalizeStack err = Ok err1 /\ normalizeStack err1 = Ok err1.
Proof.
  intros Hs.
  destruct (includes (firstLine s) (firstLine (Err.toString err))) eqn:E.
  - assert (H : normalizeStack err = Ok err).
    { unfold normalizeStack. rewrite Hs, stack_or_empty_string. cbn [bind].
      rewrite E. reflexivity. }
    exists err. split; exact H.
  - exists (Err.set_stack err (VString (Err.toString err ++ LF :: s))).
    split.
    + unfold normalizeStack. rewrite Hs, stack_or_empty_string. cbn [bind].
      rewrite E. reflexivity.
    + unfold normalizeStack. rewrite toString_set_stack.
      simpl Err.stack. rewrite stack_or_empty_string. cbn [bind].
      rewrite firstLine_prepended. reflexivity.
Qed.

(** C10, amended: for an error whose stack is falsy and whose text has
    at least two characters and does not begin with a newline,
    [normalizeStack] sets the stack to the text followed by a newline. *)
Theorem normalizeStack_stackless (err : Err.t) :
  truthy (Err.stack err) = false ->
  2 <= length (Err.toString err) ->
  (forall rest, Err.toString err <> LF :: rest) ->
  normalizeStack err
  = Ok (Err.set_stack err (VString (Err.toString err ++ [LF]))).
Proof.
  intros Hf Hlen Hhd. unfold normalizeStack.
  rewrite stack_or_empty_falsy by exact Hf. cbn [bind].
  destruct (includes (firstLine []) (firstLine (Err.toString err))) eqn:E.
  - apply includes_nil in E.
    exfalso. exact (firstLine_nonempty _ Hlen Hhd E).
  - reflexivity.
Qed.

(** C8: [replaceStack] returns an error whose stack is falsy as it is,
    whatever the replacement stack. *)
Theorem replaceStack_stackless (err : Err.t) (newStack : value) :
  truthy (Err.stack err) = false -> replaceStack err newStack = Ok err.
Proof. intros H. unfold replaceStack. rewrite H. reflexivity. Qed.

(** ** getSourceDetails *)

(** C7: when the resolver finds a position, the function name
    ["Context.eval"] becomes ["Test.run"] and every other function name
    is kept. *)
Theorem getSourceDetails_function (g : Details.t) (pos : Position.t) :
  getSourcePosition (Details.file g) g = Some pos ->
  (Details.function g = str "Context.eval" ->
   Details.function (getSourceDetails g) = str "Test.run") /\
  (Details.function g <> str "Context.eval" ->
   Details.function (getSourceDetails g) = Details.function g).
Proof.
  intros Hpos. unfold getSourceDetails. rewrite Hpos. simpl. split.
  - intros ->. reflexivity.
  - intros Hn.
    destruct (string_eqb (Details.function g) (str "Context.eval")) eqn:E;
      [|reflexivity].
    apply string_eqb_eq in E. contradiction.
Qed.

(** ** getSourceDetailsForLine and reconstructStack *)

Lemma double_add1_safe (z : Z) : isSafeInteger z -> double_add1 z = (z + 1)%Z.
Proof.
  unfold isSafeInteger, double_add1. intros H.
  destruct (Z.leb_spec (- two53) z); destruct (Z.ltb_spec z two53);
    try reflexivity; lia.
Qed.

Lemma number_text_exact (z : Z) :
  (Z.abs z <= two53)%Z -> number_text z = decimal z.
Proof.
  unfold number_text. intros H.
  destruct (Z.leb_spec (Z.abs z) two53); [reflexivity | lia].
Qed.

Lemma number_text_safe (z : Z) : isSafeInteger z -> number_text z = decimal z.
Proof. unfold isSafeInteger. intros H. apply number_text_exact. lia. Qed.

Lemma number_text_succ (z : Z) :
  isSafeInteger z -> number_text (z + 1) = decimal (z + 1).
Proof. unfold isSafeInteger. intros H. apply number_text_exact. lia. Qed.


Lemma getSourceDetailsForLine_unmapped (projectRoot line : jsstring) :
  (forall file d, getSourcePosition file d = None) ->
  well_parsed line ->
  exists parsedLine,
    getSourceDetailsForLine (VString projectRoot) line = Ok parsedLine /\
    roundtrip_line line (reconstructLine parsedLine).
Proof.
  intros Hmap Hwell.
  unfold getSourceDetailsForLine, roundtrip_line, getSourceDetails.
  unfold well_parsed in Hwell.
  destruct (parseLine line) as [[g|]|e] eqn:Hparse; [| |contradiction].
  - destruct Hwell as (file & l & c & Hf & Hne & Hl & Hsl & Hc & Hsc).
    cbn [bind]. rewrite Hmap, Hf. cbn [bind path_join_checked].
    eexists. split; [reflexivity|].
    exists file, l, c. split; [reflexivity|].
    split; [exact Hl|]. split; [exact Hc|].
    unfold reconstructLine, frameText.
    cbn [Frame.relativeFile Frame.whitespace Frame.function Frame.line
         Frame.column].
    rewrite Hl, Hc. cbn [add1 show_int show_number].
    rewrite (double_add1_safe _ Hsc).
    rewrite (number_text_safe _ Hsl), (number_text_succ _ Hsc).
    destruct file as [|x file]; [congruence | reflexivity].
  - cbn [bind]. eexists. split; [reflexivity|].
    intros Hws. simpl. rewrite Hws. reflexivity.
Qed.

Lemma mapM_unmapped (projectRoot : jsstring) (lines : list jsstring) :
  (forall file d, getSourcePosition file d = None) ->
  Forall well_parsed lines ->
  exists parsed,
    mapM (getSourceDetailsForLine (VString projectRoot)) lines = Ok parsed /\
    Forall2 roundtrip_line lines (map reconstructLine parsed).
Proof.
  intros Hmap. induction 1 as [|l lines Hl _ IH].
  - exists []. split; [reflexivity | constructor].
  - destruct (getSourceDetailsForLine_unmapped projectRoot l Hmap Hl)
      as (pl & Hpl & Hrt).
    destruct IH as (parsed & Hparsed & Hall).
    exists (pl :: parsed). split.
    + cbn [mapM]. rewrite Hpl. cbn [bind]. rewrite Hparsed. reflexivity.
    + constructor; assumption.
Qed.

Lemma roundtrip_plain (lines outs : list jsstring) :
  Forall2 roundtrip_line lines outs ->
  (forall line, In line lines ->
                parseLine line = Ok None /\ getWhitespace line = []) ->
  outs = lines.
Proof.
  induction 1 as [|l o lines outs Hlo _ IH]; intros Hplain; [reflexivity|].
  destruct (Hplain l (or_introl eq_refl)) as [Hp Hw].
  unfold roundtrip_line in Hlo. rewrite Hp in Hlo. rewrite (Hlo Hw).
  f_equal. apply IH. intros line Hin. apply Hplain. right. exact Hin.
Qed.

(** C1, amended: when the resolver maps nothing, the parser raises on
    no line, and every parsed frame names a file and has a line and a
    column that are safe integers, [getSourceStack] reconstructs the
    stack line by line, in order: a message line without leading white
    space as it is, a frame line as its white space and
    [at function (file:line:column + 1)].  A stack made of such message
    lines only is returned exactly. *)
Theorem reconstructStack_unmapped (s projectRoot : jsstring) :
  (forall file d, getSourcePosition file d = None) ->
  Forall well_parsed (split LF s) ->
  exists parsed outs,
    getSourceStack (VString s) (VString projectRoot)
    = Ok (Mapped parsed (join LF outs)) /\
    Forall2 roundtrip_line (split LF s) outs /\
    ((forall line, In line (split LF s) ->
                   parseLine line = Ok None /\ getWhitespace line = []) ->
     join LF outs = s).
Proof.
  intros Hmap Hwell.
  destruct (mapM_unmapped projectRoot (split LF s) Hmap Hwell)
    as (parsed & Hparsed & Hall).
  exists parsed, (map reconstructLine parsed). split; [|split].
  - unfold getSourceStack. rewrite Hparsed. reflexivity.
  - exact Hall.
  - intros Hplain. rewrite (roundtrip_plain _ _ Hall Hplain). apply join_split.
Qed.

(** ** Malformed error objects *)

(** C2, amended: for an error whose stack is not a string,
    [getSourceStack] returns the empty object; when that stack is also
    falsy (missing or null), [hasStack] returns false, [replaceStack]
    returns the error as it is, and [normalizeStack] returns the error
    without raising, its stack untouched or set to the error text and
    a newline; [getCodeFrame] returns undefined when the error has
    neither a code frame nor a parsed stack. *)
Theorem malformed_error_defaults (err : Err.t) (projectRoot newStack : value) :
  (forall s, Err.stack err <> VString s) ->
  getSourceStack (Err.stack err) projectRoot = Ok EmptyObject /\
  (Err.codeFrame err = None -> Err.parsedStack err = None ->
   getCodeFrame err = Ok None) /\
  (truthy (Err.stack err) = false ->
   hasStack err = Ok false /\
   replaceStack err newStack = Ok err /\
   (normalizeStack err = Ok err \/
    normalizeStack err
    = Ok (Err.set_stack err (VString (Err.toString err ++ [LF]))))).
Proof.
  intros Hns. split; [|split].
  - unfold getSourceStack.
    destruct (Err.stack err) as [| | | |s|]; try reflexivity.
    exfalso. apply (Hns s). reflexivity.
  - intros Hcf Hps. unfold getCodeFrame. rewrite Hcf, Hps. reflexivity.
  - intros Hf. split; [|split].
    + unfold hasStack. rewrite Hf. reflexivity.
    + unfold replaceStack. rewrite Hf. reflexivity.
    + unfold normalizeStack. rewrite stack_or_empty_falsy by exact Hf.
      cbn [bind].
      destruct (includes (firstLine []) (firstLine (Err.toString err)));
        [left | right]; reflexivity.
Qed.

(** ** Further properties: strings *)

Lemma string_eqb_refl (s : jsstring) : string_eqb s s = true.
Proof. apply string_eqb_eq. reflexivity. Qed.

Lemma ends_with_iff (p s : jsstring) :
  ends_with p s = true <-> exists f, s = f ++ p.
Proof.
  unfold ends_with. rewrite andb_true_iff, Nat.leb_le, string_eqb_eq. split.
  - intros [Hlen Hskip]. exists (firstn (length s - length p) s).
    rewrite <- (firstn_skipn (length s - length p) s) at 1.
    f_equal. exact Hskip.
  - intros [f ->]. rewrite length_app. split; [lia|].
    replace (length f + length p - length p) with (length f + 0) by lia.
    rewrite skipn_app, Nat.add_0_r, skipn_all.
    replace (length f - length f) with 0 by lia. reflexivity.
Qed.

Lemma ends_with_false (p s : jsstring) :
  (forall f, s <> f ++ p) -> ends_with p s = false.
Proof.
  intros H. destruct (ends_with p s) eqn:E; [|reflexivity].
  apply ends_with_iff in E. destruct E as [f Hf]. exfalso. exact (H f Hf).
Qed.

Lemma firstn_app_exact (f p : jsstring) (n : nat) :
  n = length p -> firstn (length (f ++ p) - n) (f ++ p) = f.
Proof.
  intros ->. rewrite length_app.
  replace (length f + length p - length p) with (length f + 0) by lia.
  rewrite firstn_app_2. simpl. apply app_nil_r.
Qed.

Lemma split_app (sep : char) (a b : jsstring) :
  split sep (a ++ sep :: b) = split sep a ++ split sep b.
Proof.
  induction a as [|c a IH]; simpl.
  - rewrite char_eqb_refl. reflexivity.
  - rewrite IH. destruct (char_eqb c sep); [reflexivity|].
    pose proof (split_not_nil sep a) as Hn.
    destruct (split sep a) as [|l ls]; [congruence | reflexivity].
Qed.

(** No piece of a split contains the separator. *)
Lemma split_pieces (sep : char) (s : jsstring) :
  Forall (fun l => ~ In sep l) (split sep s).
Proof.
  induction s as [|c s IH]; simpl.
  - constructor; [intros [] | constructor].
  - destruct (char_eqb c sep) eqn:E.
    + constructor; [intros [] | exact IH].
    + pose proof (split_not_nil sep s) as Hn.
      destruct (split sep s) as [|l ls]; [congruence|].
      inversion IH as [|? ? Hl Hls]; subst.
      constructor; [|exact Hls].
      intros [Hc | Hin]; [|exact (Hl Hin)].
      subst c. rewrite char_eqb_refl in E. discriminate.
Qed.

Lemma indexOf_lower (s sub : jsstring) : (-1 <= indexOf s sub)%Z.
Proof.
  induction s as [|c s IH]; simpl.
  - destruct (starts_with sub []); lia.
  - destruct (starts_with sub (c :: s)); [lia|].
    destruct (Z.ltb_spec (indexOf s sub) 0); lia.
Qed.

(** [indexOf(marker) > -1] says the same as [includes(marker)]. *)
Lemma mentions_includes (marker line : jsstring) :
  mentions marker line = includes line marker.
Proof.
  unfold mentions. induction line as [|c line IH]; simpl.
  - destruct (starts_with marker []); reflexivity.
  - destruct (starts_with marker (c :: line)); [reflexivity|]. simpl.
    rewrite <- IH. pose proof (indexOf_lower line marker) as Hl.
    destruct (Z.ltb_spec (indexOf line marker) 0) as [Hneg|Hpos].
    + replace (indexOf line marker) with (-1)%Z by lia. reflexivity.
    + destruct (Z.gtb_spec (indexOf line marker + 1) (-1));
        destruct (Z.gtb_spec (indexOf line marker) (-1)); try reflexivity; lia.
Qed.

Lemma starts_with_app (p s t : jsstring) :
  starts_with p s = true -> starts_with p (s ++ t) = true.
Proof.
  revert s. induction p as [|x p IH]; intros [|y s]; simpl;
    try reflexivity; try discriminate.
  rewrite !andb_true_iff. intros [Hx Hp]. split; [exact Hx | exact (IH s Hp)].
Qed.

Lemma starts_with_firstn_le (n m : nat) (s t : jsstring) :
  n <= m -> starts_with (firstn n s) (firstn m (s ++ t)) = true.
Proof.
  revert n m. induction s as [|c s IH]; intros n m Hle.
  - rewrite firstn_nil. reflexivity.
  - destruct n as [|n]; [reflexivity|].
    destruct m as [|m]; [lia|]. simpl.
    rewrite char_eqb_refl. apply IH. lia.
Qed.

(** The decimal text of a natural number is a non-empty run of digits. *)
Lemma uint_digits (d : Decimal.uint) :
  forallb isDigit (str (DecimalString.NilEmpty.string_of_uint d)) = true.
Proof. induction d; simpl; try reflexivity; exact IHd. Qed.

Lemma decimal_digits (z : Z) :
  (0 <= z)%Z -> decimal z <> [] /\ forallb isDigit (decimal z) = true.
Proof.
  intros Hz. destruct z as [|p|p]; [split; [discriminate | reflexivity]| |lia].
  unfold decimal. simpl Z.to_int. simpl DecimalString.NilZero.string_of_int.
  unfold DecimalString.NilZero.string_of_uint.
  destruct (Pos.to_uint p) eqn:E;
    try (split; [discriminate | rewrite <- E; apply uint_digits ]).
  split; [discriminate | reflexivity].
Qed.

(** ** Further properties: the classifier and splitStack *)

Lemma existsb_none (lines : list jsstring) :
  Forall (fun x => isFrameLine x = false) lines ->
  existsb isFrameLine lines = false.
Proof.
  induction 1 as [|l lines Hl _ IH]; simpl; [reflexivity|].
  rewrite Hl, IH. reflexivity.
Qed.

Lemma isFrameLine_not_empty (l : jsstring) : isFrameLine l = true -> l <> [].
Proof. intros H ->. vm_compute in H. discriminate. Qed.

(** X1: a line that ends with a carriage return is never a frame line,
    so the lines of a stack with CRLF line ends, its last line apart,
    are not classified as frames. *)
Theorem isFrameLine_CR (l : jsstring) : isFrameLine (l ++ [13%N]) = false.
Proof.
  destruct (isFrameLine (l ++ [13%N])) eqn:E; [|reflexivity]. exfalso.
  apply stackLineRegex_position_inv in E.
  destruct E as (ws & body & n1 & n2 & close & Heq & _ & _ & _ & _
                 & Hn2 & Hd2 & Hclose).
  unfold positionLine in Heq.
  destruct Hclose as [-> | ->].
  - rewrite app_nil_r in Heq.
    destruct (exists_last Hn2) as (n2' & d & ->).
    rewrite forallb_app in Hd2. apply andb_true_iff in Hd2.
    destruct Hd2 as [_ Hd]. simpl in Hd. rewrite andb_true_r in Hd.
    rewrite !app_assoc in Heq. apply app_inj_tail in Heq.
    destruct Heq as [_ <-]. vm_compute in Hd. discriminate.
  - rewrite !app_assoc in Heq. apply app_inj_tail in Heq.
    destruct Heq as [_ Hc]. vm_compute in Hc. discriminate.
Qed.

(** X2: [splitStack] keeps its two invariants: no message line matches
    the frame pattern, and the first frame line, when there is one,
    matches it. *)
Theorem splitStack_invariant (s : jsstring) :
  exists messages frames,
    splitStack (VString s) = Ok (messages, frames) /\
    Forall (fun x => isFrameLine x = false) messages /\
    match frames with
    | [] => True
    | l :: _ => isFrameLine l = true
    end.
Proof.
  unfold splitStack.
  destruct (first_frame_line (split LF s))
    as [H | (pre & l & post & Hs & Hpre & Hl)].
  - exists (split LF s), []. rewrite splitLines_all_messages by exact H.
    repeat split. exact H.
  - exists pre, (l :: post). rewrite Hs, splitLines_sticky by assumption.
    repeat split; assumption.
Qed.

(** X3: splitting and joining back is the identity: the message lines
    followed by the frame lines, joined with newlines, are the stack. *)
Theorem splitStack_join (s : jsstring) :
  exists messages frames,
    splitStack (VString s) = Ok (messages, frames) /\
    join LF (messages ++ frames) = s.
Proof.
  exists (fst (splitLines (split LF s))), (snd (splitLines (split LF s))).
  split; [unfold splitStack; rewrite <- surjective_pairing; reflexivity|].
  rewrite splitLines_app. apply join_split.
Qed.

(** X4: [getWhitespace] returns a prefix of the line made of white
    space only, and the character after it, if any, is not white
    space. *)
Theorem getWhitespace_prefix (line : jsstring) :
  exists rest,
    line = getWhitespace line ++ rest /\
    forallb isWhiteSpace (getWhitespace line) = true /\
    match rest with
    | [] => True
    | c :: _ => isWhiteSpace c = false
    end.
Proof.
  assert (H : exists rest,
             line = leading isWhiteSpace line ++ rest /\
             forallb isWhiteSpace (leading isWhiteSpace line) = true /\
             match rest with
             | [] => True
             | c :: _ => isWhiteSpace c = false
             end).
  { induction line as [|c line IH].
    - exists []. repeat split.
    - simpl. destruct (isWhiteSpace c) eqn:E.
      + destruct IH as (rest & Hl & Hw & Hr). exists rest.
        simpl. rewrite E, Hw, <- Hl. repeat split. exact Hr.
      + exists (c :: line). repeat split. exact E. }
  destruct line; exact H.
Qed.

(** ** Further properties: hasStack and isFromCypress *)

Lemma splitLines_has_frames (lines : list jsstring) :
  negb (length (snd (splitLines lines)) =? 0) = existsb isFrameLine lines.
Proof.
  destruct (first_frame_line lines)
    as [H | (pre & l & post & -> & Hpre & Hl)].
  - rewrite splitLines_all_messages, existsb_none by exact H. reflexivity.
  - rewrite splitLines_sticky by assumption. simpl. symmetry.
    apply existsb_exists. exists l. split; [|exact Hl].
    apply in_or_app. right. left. reflexivity.
Qed.

(** X5: for an error with a string stack, [hasStack] says whether some
    line of the stack matches the frame pattern. *)
Theorem hasStack_frame_line (err : Err.t) (s : jsstring) :
  Err.stack err = VString s ->
  hasStack err = Ok (existsb isFrameLine (split LF s)).
Proof.
  intros Hs. unfold hasStack. rewrite Hs.
  destruct s as [|c s]; [reflexivity|].
  cbn [truthy negb splitStack bind snd].
  rewrite splitLines_has_frames. reflexivity.
Qed.

(** X6: [isFromCypress] looks at the first line that matches the frame
    pattern only: it returns whether that line contains ["cypress://"],
    whatever the lines after it are. *)
Theorem isFromCypress_first_frame (err : Err.t) (s : jsstring)
    (pre post : list jsstring) (l : jsstring) :
  Err.stack err = VString s ->
  split LF s = pre ++ l :: post ->
  Forall (fun x => isFrameLine x = false) pre ->
  isFrameLine l = true ->
  isFromCypress err = Ok (VBool (includes l (str "cypress://"))).
Proof.
  intros Hs Hsplit Hpre Hl. unfold isFromCypress. rewrite Hs.
  unfold splitStack. rewrite Hsplit, splitLines_sticky by assumption.
  cbn [bind snd]. pose proof (isFrameLine_not_empty l Hl) as Hn.
  destruct l as [|c l]; [congruence|]. cbn [truthy].
  rewrite mentions_includes. reflexivity.
Qed.

(** X7: for a string stack without any frame line, [isFromCypress]
    returns undefined, not false. *)
Theorem isFromCypress_no_frames (err : Err.t) (s : jsstring) :
  Err.stack err = VString s ->
  Forall (fun x => isFrameLine x = false) (split LF s) ->
  isFromCypress err = Ok VUndefined.
Proof.
  intros Hs H. unfold isFromCypress. rewrite Hs. unfold splitStack.
  rewrite splitLines_all_messages by exact H. reflexivity.
Qed.

(** ** Further properties: replaceStack and normalizeStack *)

Lemma replaceStack_truthy (err : Err.t) (newStack : jsstring) :
  truthy (Err.stack err) = true ->
  replaceStack err (VString newStack)
  = Ok (Err.set_stack err
          (VString
             (join LF
                (Err.toString err
                 :: filter
                      (fun line =>
                         negb (mentions (str "__getSpecFrameStack") line))
                      (snd (splitLines (split LF newStack))))))).
Proof. intros H. unfold replaceStack. rewrite H. reflexivity. Qed.

Lemma normalizeStack_included (err : Err.t) (s : jsstring) :
  includes (firstLine s) (firstLine (Err.toString err)) = true ->
  normalizeStack (Err.set_stack err (VString s))
  = Ok (Err.set_stack err (VString s)).
Proof.
  intros H. unfold normalizeStack. rewrite toString_set_stack.
  simpl Err.stack. rewrite stack_or_empty_string. cbn [bind].
  rewrite H. reflexivity.
Qed.

(** X8: the stack [replaceStack] builds needs no normalising:
    [normalizeStack] returns the replaced error as it is. *)
Theorem replaceStack_normalized (err : Err.t) (newStack : jsstring) :
  truthy (Err.stack err) = true ->
  exists err1,
    replaceStack err (VString newStack) = Ok err1 /\
    normalizeStack err1 = Ok err1.
Proof.
  intros H. rewrite replaceStack_truthy by exact H.
  eexists. split; [reflexivity|].
  set (kept := filter _ _). apply normalizeStack_included.
  destruct kept as [|r rs].
  - cbn [join]. apply includes_starts_with. apply starts_with_refl.
  - rewrite join_cons by discriminate. apply firstLine_prepended.
Qed.

(** X9: when the new stack text has no frame line, [replaceStack] sets
    the stack to the error text alone: message lines of the new text
    are not kept. *)
Theorem replaceStack_no_frames (err : Err.t) (newStack : jsstring) :
  truthy (Err.stack err) = true ->
  Forall (fun x => isFrameLine x = false) (split LF newStack) ->
  replaceStack err (VString newStack)
  = Ok (Err.set_stack err (VString (Err.toString err))).
Proof.
  intros H Hnone. rewrite replaceStack_truthy by exact H.
  rewrite splitLines_all_messages by exact Hnone. reflexivity.
Qed.

Lemma splitLines_snd_pieces (s : jsstring) :
  Forall (fun l => ~ In LF l) (snd (splitLines (split LF s))).
Proof.
  pose proof (split_pieces LF s) as H.
  rewrite <- (splitLines_app (split LF s)) in H.
  apply Forall_app in H. exact (proj2 H).
Qed.

Lemma Forall_filter {A} (P : A -> Prop) (f : A -> bool) (l : list A) :
  Forall P l -> Forall P (filter f l).
Proof.
  induction 1 as [|x l Hx _ IH]; simpl; [constructor|].
  destruct (f x); [constructor; assumption | exact IH].
Qed.

(** X10: after [replaceStack], when the error text does not contain
    the marker [__getSpecFrameStack], no line of the stack does. *)
Theorem replaceStack_no_marker (err : Err.t) (newStack : jsstring) :
  truthy (Err.stack err) = true ->
  Forall (fun l => includes l (str "__getSpecFrameStack") = false)
         (split LF (Err.toString err)) ->
  exists stack1,
    replaceStack err (VString newStack)
    = Ok (Err.set_stack err (VString stack1)) /\
    Forall (fun l => includes l (str "__getSpecFrameStack") = false)
           (split LF stack1).
Proof.
  intros H Htext. rewrite replaceStack_truthy by exact H.
  eexists. split; [reflexivity|].
  set (kept := filter _ _).
  assert (Hkept : Forall (fun l => includes l (str "__getSpecFrameStack")
                                   = false) kept).
  { apply Forall_forall. intros l Hin. unfold kept in Hin.
    apply filter_In in Hin. destruct Hin as [_ Hm].
    apply negb_true_iff in Hm. rewrite mentions_includes in Hm. exact Hm. }
  assert (Hlf : Forall (fun l => ~ In LF l) kept).
  { unfold kept. apply Forall_filter. apply splitLines_snd_pieces. }
  destruct kept as [|r rs]; [exact Htext|].
  rewrite join_cons by discriminate. rewrite split_app.
  rewrite split_join by (discriminate || exact Hlf).
  apply Forall_app. split; assumption.
Qed.

(** X11: an error whose stack begins with the error text, as the
    stacks of Chromium do, is returned by [normalizeStack] as it is. *)
Theorem normalizeStack_prefixed (err : Err.t) (rest : jsstring) :
  Err.stack err = VString (Err.toString err ++ rest) ->
  normalizeStack err = Ok err.
Proof.
  intros Hs. unfold normalizeStack. rewrite Hs, stack_or_empty_string.
  cbn [bind]. rewrite includes_starts_with; [reflexivity|].
  destruct (LF_decompose (Err.toString err)) as [H | (a & b & Heq & Ha)].
  - rewrite (firstLine_no_LF _ H).
    destruct (LF_decompose rest) as [Hr | (r1 & r2 & -> & Hr1)].
    + rewrite firstLine_no_LF by (rewrite forallb_app, H, Hr; reflexivity).
      apply starts_with_firstn_le. rewrite length_app. lia.
    + rewrite app_assoc.
      rewrite firstLine_app_LF by (rewrite forallb_app, H, Hr1; reflexivity).
      apply starts_with_app. apply starts_with_firstn.
  - rewrite Heq. rewrite <- app_assoc, <- app_comm_cons.
    rewrite !firstLine_app_LF by exact Ha. apply starts_with_refl.
Qed.

(** ** Further properties: getSourceStack *)

Lemma mapM_Forall2 {A B} (f : A -> result B) (l : list A) (bs : list B) :
  mapM f l = Ok bs -> Forall2 (fun a b => f a = Ok b) l bs.
Proof.
  revert bs. induction l as [|a l IH]; intros bs H; simpl in H.
  - inversion H. constructor.
  - destruct (f a) as [b|e] eqn:Ha; [|discriminate]. cbn [bind] in H.
    destruct (mapM f l) as [bs'|e] eqn:Hl; [|discriminate]. cbn [bind] in H.
    inversion H. subst. constructor; [exact Ha | apply IH; reflexivity].
Qed.

Lemma mapM_throw {A B} (f : A -> result B) (l : list A) (a : A) :
  In a l -> f a = Throw TypeError -> mapM f l = Throw TypeError.
Proof.
  induction l as [|x l IH]; intros Hin Ha; [contradiction|]. simpl.
  destruct (f x) as [b|[]] eqn:Hx; [|reflexivity]. cbn [bind].
  destruct Hin as [-> | Hin]; [congruence|].
  rewrite (IH Hin Ha). reflexivity.
Qed.

Lemma mapM_map {A B} (f : A -> result B) (g : A -> B) (l : list A) :
  (forall a, In a l -> f a = Ok (g a)) -> mapM f l = Ok (map g l).
Proof.
  induction l as [|x l IH]; intros H; [reflexivity|]. simpl.
  rewrite (H x (or_introl eq_refl)). cbn [bind].
  rewrite IH by (intros a Ha; apply H; right; exact Ha). reflexivity.
Qed.

Lemma getSourceDetailsForLine_parsed_from (projectRoot : value)
    (line : jsstring) (parsedLine : ParsedLine) :
  getSourceDetailsForLine projectRoot line = Ok parsedLine ->
  parsed_from projectRoot line parsedLine.
Proof.
  unfold getSourceDetailsForLine.
  destruct (parseLine line) as [[g|]|e] eqn:Hp; [| |discriminate].
  - cbn [bind]. unfold path_join_checked.
    destruct projectRoot as [| | | |root|]; try discriminate.
    destruct (Details.file (getSourceDetails g)) as [file|] eqn:Hf;
      [|discriminate].
    cbn [bind]. intros H. inversion H. subst. simpl.
    exists g, root, file. rewrite Hp. repeat split.
  - cbn [bind]. intros H. inversion H. subst. simpl. rewrite Hp.
    repeat split.
Qed.

Lemma parseLine_frame_line (line : jsstring) (g : Details.t) :
  parseLine line = Ok (Some g) -> isFrameLine line = true.
Proof.
  unfold parseLine, isFrameLine.
  destruct (test stackLineRegex line); [reflexivity | discriminate].
Qed.

Lemma parseLine_message (line : jsstring) :
  isFrameLine line = false -> parseLine line = Ok None.
Proof. unfold parseLine, isFrameLine. intros ->. reflexivity. Qed.

(** X12: when [getSourceStack] returns a parsed stack, it has one entry
    per line of the stack, in order.  A message entry holds the whole
    line and its leading white space; a frame entry holds the leading
    white space, the generated file as [fileUrl], and a relative file
    that is a string, joined to the project root in [absoluteFile]. *)
Theorem getSourceStack_entries (s : jsstring) (projectRoot : value)
    (parsed : list ParsedLine) (sourceMapped : jsstring) :
  getSourceStack (VString s) projectRoot = Ok (Mapped parsed sourceMapped) ->
  Forall2 (parsed_from projectRoot) (split LF s) parsed /\
  length parsed = S (length (filter (char_eqb LF) s)).
Proof.
  unfold getSourceStack.
  destruct (mapM (getSourceDetailsForLine projectRoot) (split LF s))
    as [ps|e] eqn:Hm; [|discriminate].
  cbn [bind]. intros H. inversion H. subst.
  apply mapM_Forall2 in Hm.
  assert (HF : Forall2 (parsed_from projectRoot) (split LF s) parsed).
  { revert Hm. apply Forall2_impl.
    exact (getSourceDetailsForLine_parsed_from projectRoot). }
  split; [exact HF|].
  rewrite <- (Forall2_length HF). apply length_split.
Qed.

(** X13: a stack without any frame line is parsed into message entries
    only, whatever the project root is and without asking the parser,
    the resolver or [path.join]; each line comes back with its leading
    white space put in front of it. *)
Theorem getSourceStack_messages (s : jsstring) (projectRoot : value) :
  Forall (fun x => isFrameLine x = false) (split LF s) ->
  getSourceStack (VString s) projectRoot
  = Ok (Mapped (map messageEntry (split LF s))
               (join LF (map (fun l => getWhitespace l ++ l) (split LF s)))).
Proof.
  intros H. unfold getSourceStack.
  rewrite (mapM_map _ messageEntry).
  - cbn [bind]. unfold reconstructStack. rewrite map_map. reflexivity.
  - intros line Hin. unfold getSourceDetailsForLine.
    rewrite parseLine_message; [reflexivity|].
    rewrite Forall_forall in H. exact (H line Hin).
Qed.

(** X14: without a project root that is a string, [getSourceStack]
    raises a TypeError as soon as one line of the stack is parsed as a
    frame, because [path.join] is given a value that is not a string. *)
Theorem getSourceStack_no_root (s : jsstring) (projectRoot : value)
    (line : jsstring) (g : Details.t) :
  (forall root, projectRoot <> VString root) ->
  In line (split LF s) ->
  parseLine line = Ok (Some g) ->
  getSourceStack (VString s) projectRoot = Throw TypeError.
Proof.
  intros Hroot Hin Hp. unfold getSourceStack.
  rewrite (mapM_throw _ _ line Hin); [reflexivity|].
  unfold getSourceDetailsForLine. rewrite Hp. cbn [bind].
  unfold path_join_checked.
  destruct projectRoot as [| | | |root|]; try reflexivity.
  exfalso. exact (Hroot root eq_refl).
Qed.

(** ** Further properties: cleanFunctionName *)

(** X15: [cleanFunctionName] removes one trailing ["/<"] or ["</<"]:
    for a name [f] that does not itself end with ["<"], both
    [f ++ "/<"] and [f ++ "</<"] are cleaned to [f]. *)
Theorem cleanFunctionName_strips (f : jsstring) :
  (forall f', f <> f' ++ str "<") ->
  cleanFunctionName (Some (f ++ str "/<")) = f /\
  cleanFunctionName (Some (f ++ str "</<")) = f.
Proof.
  intros Hf. unfold cleanFunctionName, strip_functionExtras. split.
  - rewrite ends_with_false.
    + rewrite (proj2 (ends_with_iff (str "/<") (f ++ str "/<")))
        by (exists f; reflexivity).
      apply firstn_app_exact. reflexivity.
    + intros f' Heq.
      change (str "</<") with (str "<" ++ str "/<") in Heq.
      rewrite app_assoc in Heq. apply app_inv_tail in Heq.
      exact (Hf f' Heq).
  - rewrite (proj2 (ends_with_iff (str "</<") (f ++ str "</<")))
      by (exists f; reflexivity).
    apply firstn_app_exact. reflexivity.
Qed.

(** X16: a function name that does not end with ["/<"] is returned as
    it is. *)
Theorem cleanFunctionName_keeps (name : jsstring) :
  (forall f, name <> f ++ str "/<") ->
  cleanFunctionName (Some name) = name.
Proof.
  intros Hn. unfold cleanFunctionName, strip_functionExtras.
  rewrite (ends_with_false (str "/<") name Hn).
  rewrite ends_with_false; [reflexivity|].
  intros f Heq. apply (Hn (f ++ str "<")).
  rewrite <- app_assoc. exact Heq.
Qed.

(** ** Further properties: getCodeFrame *)

Lemma find_all_false {A} (p : A -> bool) (l : list A) :
  Forall (fun x => p x = false) l -> find p l = None.
Proof.
  induction 1 as [|x l Hx _ IH]; simpl; [reflexivity|].
  rewrite Hx. exact IH.
Qed.

Lemma find_first {A} (p : A -> bool) (l : list A) (x : A) :
  find p l = Some x ->
  exists pre post,
    l = pre ++ x :: post /\ Forall (fun y => p y = false) pre /\ p x = true.
Proof.
  induction l as [|y l IH]; simpl; [discriminate|].
  destruct (p y) eqn:Hy.
  - intros H. inversion H. subst. exists [], l.
    repeat split; [constructor | exact Hy].
  - intros H. destruct (IH H) as (pre & post & -> & Hpre & Hx).
    exists (y :: pre), post. repeat split; [constructor; assumption | exact Hx].
Qed.

(** X17: for an error without a code frame whose parsed stack has no
    entry with a file URL (or that has no parsed stack at all),
    [getCodeFrame] returns undefined, without reading any source. *)
Theorem getCodeFrame_no_file (err : Err.t) :
  Err.codeFrame err = None ->
  (forall ls, Err.parsedStack err = Some ls ->
              Forall (fun l => has_fileUrl l = false) ls) ->
  getCodeFrame err = Ok None.
Proof.
  intros Hcf Hls. unfold getCodeFrame. rewrite Hcf.
  destruct (Err.parsedStack err) as [ls|]; [|reflexivity].
  rewrite (find_all_false _ _ (Hls ls eq_refl)). reflexivity.
Qed.

(** X18: a code frame that [getCodeFrame] computes comes from the first
    entry of the parsed stack whose file URL is truthy (a string that
    is not empty): the source read for that URL is not empty, the frame
    text is what [codeFrameColumns] returns for the entry's line and
    column and is not empty, and the position and the files are those
    of the entry. *)
Theorem getCodeFrame_first_file (err : Err.t) (cf : CodeFrame.t) :
  Err.codeFrame err = None ->
  getCodeFrame err = Ok (Some cf) ->
  exists pre f post fileUrl src,
    Err.parsedStack err = Some (pre ++ FrameLine f :: post) /\
    Forall (fun l => has_fileUrl l = false) pre /\
    Frame.fileUrl f = Some fileUrl /\
    fileUrl <> [] /\
    getSourceContents fileUrl (Frame.relativeFile f) = Some src /\
    src <> [] /\
    CodeFrame.frame cf = codeFrameColumns src (Frame.line f) (Frame.column f) /\
    CodeFrame.frame cf <> [] /\
    CodeFrame.line cf = Frame.line f /\
    CodeFrame.column cf = Frame.column f /\
    CodeFrame.relativeFile cf = Frame.relativeFile f /\
    CodeFrame.absoluteFile cf = Frame.absoluteFile f.
Proof.
  intros Hcf. unfold getCodeFrame. rewrite Hcf.
  destruct (Err.parsedStack err) as [ls|]; [|discriminate].
  destruct (find has_fileUrl ls) as [[m w|f]|] eqn:Hfind; try discriminate.
  destruct (find_first _ _ _ Hfind) as (pre & post & -> & Hpre & Htruthy).
  destruct (Frame.fileUrl f) as [fileUrl|] eqn:Hurl; [|discriminate].
  assert (Hne : fileUrl <> []).
  { intros ->. simpl in Htruthy. rewrite Hurl in Htruthy. discriminate. }
  unfold getCodeFrameFromSource.
  destruct (getSourceContents fileUrl (Frame.relativeFile f))
    as [[|c src]|] eqn:Hsrc; try discriminate.
  cbn [truthy_string negb].
  destruct (codeFrameColumns (c :: src) (Frame.line f) (Frame.column f))
    as [|d frame] eqn:Hframe; [discriminate|].
  destruct (getLanguageFromExtension (Frame.relativeFile f)) as [lang|e];
    [|discriminate].
  cbn [bind]. intros H. inversion H. subst. simpl.
  exists pre, f, post, fileUrl, (c :: src).
  rewrite Hframe. repeat split; try assumption; discriminate.
Qed.

(** ** Further properties: reconstructStack *)

(** X19: the line [reconstructStack] prints for a frame entry is
    itself a frame line for [splitStack], when the entry's white space
    is white space, its function name and file have no line
    terminator, and its line and column are natural numbers up to 2^53
    (all of whose digits are printed). *)
Theorem reconstructLine_frame_line (f : Frame.t) (l c : Z) :
  forallb isWhiteSpace (Frame.whitespace f) = true ->
  forallb isDot (Frame.function f) = true ->
  (forall file, Frame.relativeFile f = Some file ->
                forallb isDot file = true) ->
  Frame.line f = Some l -> (0 <= l <= two53)%Z ->
  Frame.column f = Num c -> (0 <= c <= two53)%Z ->
  isFrameLine (reconstructLine (FrameLine f)) = true.
Proof.
  intros Hws Hfn Hfile Hl Hl0 Hc Hc0.
  destruct (decimal_digits l (proj1 Hl0)) as [Hn1 Hd1].
  destruct (decimal_digits c (proj1 Hc0)) as [Hn2 Hd2].
  unfold reconstructLine. rewrite Hl, Hc. cbn [show_int show_number].
  rewrite (number_text_exact l) by lia.
  rewrite (number_text_exact c) by lia.
  set (shown := if truthy_string (Frame.relativeFile f) then _ else _).
  assert (Hshown : forallb isDot shown = true).
  { unfold shown. destruct (Frame.relativeFile f) as [[|x file]|] eqn:E;
      try reflexivity.
    cbn [truthy_string]. apply Hfile. reflexivity. }
  unfold isFrameLine.
  replace (Frame.whitespace f ++ str "at " ++ Frame.function f ++ str " ("
           ++ shown ++ str ":" ++ decimal l ++ str ":" ++ decimal c
           ++ str ")")
    with (Frame.whitespace f
          ++ (str "at " ++ Frame.function f ++ str " (" ++ shown)
          ++ str ":" ++ decimal l ++ str ":" ++ decimal c ++ str ")")
    by (rewrite <- !app_assoc; reflexivity).
  apply stackLineRegex_position; try assumption.
  - rewrite !forallb_app, Hfn, Hshown. reflexivity.
  - right. reflexivity.
Qed.

End StackUtils.

(** ** The theorems at concrete inputs *)

Example stackLineRegex_chrome :
  isFrameLine (str "    at foo (file.js:12:5)") = true.
Proof. vm_compute. reflexivity. Qed.

Example stackLineRegex_firefox :
  isFrameLine (str "foo@file.js:12:5") = true.
Proof. vm_compute. reflexivity. Qed.

Example stackLineRegex_message :
  isFrameLine (str "Error: something went wrong") = false.
Proof. vm_compute. reflexivity. Qed.

(** [x + 1] at and above 2^53: 2^53 + 1 and 2^53 + 4 + 1 round down,
    2^53 + 2 + 1 rounds up, 2^54 + 1 rounds back, and below -2^53 the
    sum rounds towards the even neighbour as well. *)
Example double_add1_values :
  double_add1 9007199254740991 = 9007199254740992%Z /\
  double_add1 9007199254740992 = 9007199254740992%Z /\
  double_add1 9007199254740994 = 9007199254740996%Z /\
  double_add1 9007199254740996 = 9007199254740996%Z /\
  double_add1 18014398509481984 = 18014398509481984%Z /\
  double_add1 (-9007199254740992) = (-9007199254740991)%Z /\
  double_add1 (-9007199254740994) = (-9007199254740992)%Z.
Proof. vm_compute. repeat split. Qed.

(** A message line that begins with white space gets that white space
    twice: it is kept in [message] and in [whitespace]. *)
Example indented_message_line :
  getSourceStack (parse_as frame_foo) no_mapping sample_join sample_large_text
    (VString (str "  indented")) (VString (str "project"))
  = Ok (Mapped [MessageLine (str "  indented") (str "  ")]
               (str "    indented")).
Proof. vm_compute. reflexivity. Qed.

Lemma splitStack_sticky_witness :
  splitStack (VString sample_stack)
  = Ok ([str "Error: boom"; str "  more of the message"],
        [str "  at foo (file.js:1:2)"; str "not a frame";
         str "  at bar (file.js:3:4)"]).
Proof.
  apply (splitStack_sticky sample_stack
           [str "Error: boom"; str "  more of the message"]
           [str "not a frame"; str "  at bar (file.js:3:4)"]
           (str "  at foo (file.js:1:2)")).
  - vm_compute. reflexivity.
  - repeat constructor.
  - vm_compute. reflexivity.
Defined.

Lemma normalizeStack_idempotent_witness :
  exists err1,
    normalizeStack (Err.set_stack plain_error (VString (str "foo@a.js:1:2")))
    = Ok err1
    /\ normalizeStack err1 = Ok err1.
Proof.
  apply (normalizeStack_idempotent
           (Err.set_stack plain_error (VString (str "foo@a.js:1:2")))
           (str "foo@a.js:1:2")).
  reflexivity.
Defined.

Lemma normalizeStack_stackless_witness :
  normalizeStack plain_error
  = Ok (Err.set_stack plain_error (VString (str "Error: boom" ++ [LF]))).
Proof.
  apply (normalizeStack_stackless plain_error).
  - reflexivity.
  - vm_compute. lia.
  - intros rest. vm_compute. discriminate.
Defined.

(** C10, as stated, fails: an error without name and message has the
    empty text, and its missing stack is left missing. *)
Lemma normalizeStack_stackless_counterexample :
  truthy (Err.stack empty_error) = false /\
  normalizeStack empty_error = Ok empty_error /\
  Err.stack empty_error = VUndefined /\
  normalizeStack empty_error
  <> Ok (Err.set_stack empty_error
           (VString (Err.toString empty_error ++ [LF]))).
Proof.
  split; [reflexivity|]. split; [reflexivity|]. split; [reflexivity|].
  vm_compute. discriminate.
Qed.

Lemma replaceStack_stackless_witness :
  replaceStack plain_error (VString sample_stack) = Ok plain_error.
Proof.
  apply (replaceStack_stackless plain_error (VString sample_stack)).
  reflexivity.
Defined.

Lemma getSourceDetails_function_witness :
  Details.function (getSourceDetails map_to_spec details_eval)
  = str "Test.run".
Proof.
  apply (getSourceDetails_function map_to_spec details_eval
           (Position.mk (str "spec.js") 5 1)).
  - reflexivity.
  - reflexivity.
Defined.



(** The example of the specification: the generated frame
    [bundle.js:10:3], mapped to [spec.js:5:1], is printed with column 2. *)
Example mapped_frame_text :
  getSourceStack (parse_as frame_bundle) map_to_spec sample_join sample_large_text
    (VString (str "  at foo (bundle.js:10:3)")) (VString (str "project"))
  = Ok (Mapped
          [FrameLine (Frame.mk (str "foo") (Some (str "bundle.js"))
                        (Some (str "spec.js")) (str "project/spec.js")
                        (Some 5%Z) (Num 2) (str "  "))]
          (str "  at foo (spec.js:5:2)")).
Proof. vm_compute. reflexivity. Qed.

Lemma parse_as_well_parsed (line : jsstring) :
  well_parsed (parse_as frame_foo) line.
Proof.
  unfold well_parsed, parseLine, parse_as.
  destruct (negb (test stackLineRegex line)); cbn [bind]; [exact I|].
  exists (str "file.js"), 1%Z, 2%Z. cbn.
  repeat split; try discriminate; unfold isSafeInteger, two53; simpl; lia.
Qed.

Lemma reconstructStack_unmapped_witness :
  exists parsed outs,
    getSourceStack (parse_as frame_foo) no_mapping sample_join
      sample_large_text (VString two_lines) (VString (str "project"))
    = Ok (Mapped parsed (join LF outs)) /\
    Forall2 (roundtrip_line (parse_as frame_foo))
            (split LF two_lines) outs /\
    ((forall line, In line (split LF two_lines) ->
                   parseLine (parse_as frame_foo) line = Ok None /\
                   getWhitespace line = []) ->
     join LF outs = two_lines).
Proof.
  apply (reconstructStack_unmapped (parse_as frame_foo) no_mapping
           sample_join sample_large_text two_lines (str "project")).
  - intros file d. reflexivity.
  - apply Forall_forall. intros line _. apply parse_as_well_parsed.
Defined.

(** The parser raises on a frame line whose column is not a finite
    number; the exception leaves [getSourceStack]. *)
Example parser_raises :
  getSourceStack (fun _ => Throw TypeError) no_mapping sample_join
    sample_large_text (VString two_lines) (VString (str "project"))
  = Throw TypeError.
Proof. vm_compute. reflexivity. Qed.

(** C1, as stated, fails: without any mapping the frame line
    ["at foo (file.js:1:2)"] is reconstructed with column 3. *)
Lemma reconstructStack_roundtrip_counterexample :
  exists parsed,
    getSourceStack (parse_as frame_foo) no_mapping sample_join sample_large_text
      (VString (str "at foo (file.js:1:2)")) (VString (str "project"))
    = Ok (Mapped parsed (str "at foo (file.js:1:3)")) /\
    str "at foo (file.js:1:3)" <> str "at foo (file.js:1:2)".
Proof.
  eexists. split; [vm_compute; reflexivity | vm_compute; discriminate].
Qed.

Lemma malformed_error_defaults_witness :
  getSourceStack (parse_as frame_foo) no_mapping sample_join sample_large_text
    VUndefined (VString (str "project")) = Ok EmptyObject /\
  getCodeFrame (fun _ _ => None) (fun _ _ _ => []) (fun p => p)
    (fun p => p) plain_error = Ok None /\
  hasStack plain_error = Ok false /\
  replaceStack plain_error (VString sample_stack) = Ok plain_error.
Proof.
  destruct (malformed_error_defaults (parse_as frame_foo) no_mapping
              (fun _ _ => None) (fun _ _ _ => []) sample_join
              (fun p => p) (fun p => p) sample_large_text
              plain_error (VString (str "project")) (VString sample_stack))
    as (Hsource & Hframe & Hfalsy).
  - intros s. simpl. discriminate.
  - destruct (Hfalsy eq_refl) as (Hhas & Hreplace & _).
    split; [exact Hsource|]. split; [exact (Hframe eq_refl eq_refl)|].
    split; [exact Hhas | exact Hreplace].
Defined.

(** C2, as stated, fails: [isFromCypress] raises a TypeError on an
    error without a stack, [hasStack] and [normalizeStack] raise one on
    a stack that is a number, and [normalizeStack] changes a stackless
    error. *)
Lemma malformed_error_counterexample :
  isFromCypress plain_error = Throw TypeError /\
  hasStack (Err.set_stack plain_error (VNumber (Num 42))) = Throw TypeError /\
  normalizeStack (Err.set_stack plain_error (VNumber (Num 42)))
  = Throw TypeError /\
  normalizeStack plain_error
  = Ok (Err.set_stack plain_error (VString (str "Error: boom" ++ [LF]))) /\
  Err.set_stack plain_error (VString (str "Error: boom" ++ [LF]))
  <> plain_error.
Proof.
  repeat (split; [vm_compute; reflexivity|]). vm_compute. discriminate.
Qed.

Lemma position_suffix_is_frame_line_witness :
  isFrameLine (positionLine [] (str "oops ") (str "1") (str "2") []) = true /\
  exists messages before,
    splitStack (VString (str "oops :1:2"))
    = Ok (messages,
          before ++ positionLine [] (str "oops ") (str "1") (str "2") []
                 :: []).
Proof.
  apply (position_suffix_is_frame_line [] (str "oops ") (str "1") (str "2")
           [] (str "oops :1:2") [] []);
    try reflexivity; try discriminate.
  left. reflexivity.
Defined.

(** C9, as stated, fails: a line that ends with [:1:2] but has a
    carriage return after its first character does not match the
    pattern, because [.] does not match a line terminator, and
    [splitStack] keeps it as a message line. *)
Lemma position_suffix_counterexample :
  ends_with_position line_with_CR /\
  isFrameLine line_with_CR = false /\
  splitStack (VString line_with_CR) = Ok ([line_with_CR], []).
Proof.
  split; [|split; vm_compute; reflexivity].
  exists (str "a" ++ 13%N :: str "b"), (str "1"), (str "2"), [].
  repeat split; try reflexivity; try discriminate. left. reflexivity.
Qed.

(** ** The further properties at concrete inputs *)

Lemma hasStack_frame_line_witness : hasStack chromium_error = Ok true.
Proof.
  apply (hasStack_frame_line chromium_error
           (join LF [ str "Error: boom";
                      str "  at foo (cypress://runner/file.js:1:2)";
                      str "  at bar (http://localhost/app.js:3:4)" ])).
  reflexivity.
Defined.

Lemma isFromCypress_first_frame_witness :
  isFromCypress chromium_error = Ok (VBool true).
Proof.
  apply (isFromCypress_first_frame chromium_error
           (join LF [ str "Error: boom";
                      str "  at foo (cypress://runner/file.js:1:2)";
                      str "  at bar (http://localhost/app.js:3:4)" ])
           [str "Error: boom"]
           [str "  at bar (http://localhost/app.js:3:4)"]
           (str "  at foo (cypress://runner/file.js:1:2)")).
  - reflexivity.
  - vm_compute. reflexivity.
  - repeat constructor.
  - vm_compute. reflexivity.
Defined.

Lemma isFromCypress_no_frames_witness :
  isFromCypress (Err.set_stack plain_error (VString (str "Error: boom")))
  = Ok VUndefined.
Proof.
  apply (isFromCypress_no_frames
           (Err.set_stack plain_error (VString (str "Error: boom")))
           (str "Error: boom")).
  - reflexivity.
  - repeat constructor.
Defined.

Lemma replaceStack_normalized_witness :
  exists err1,
    replaceStack chromium_error (VString stack_with_marker) = Ok err1 /\
    normalizeStack err1 = Ok err1.
Proof.
  apply (replaceStack_normalized chromium_error stack_with_marker).
  reflexivity.
Defined.

Lemma replaceStack_no_frames_witness :
  replaceStack chromium_error (VString (str "only a message"))
  = Ok (Err.set_stack chromium_error (VString (str "Error: boom"))).
Proof.
  apply (replaceStack_no_frames chromium_error (str "only a message")).
  - reflexivity.
  - repeat constructor.
Defined.

Lemma replaceStack_no_marker_witness :
  exists stack1,
    replaceStack chromium_error (VString stack_with_marker)
    = Ok (Err.set_stack chromium_error (VString stack1)) /\
    Forall (fun l => includes l (str "__getSpecFrameStack") = false)
           (split LF stack1).
Proof.
  apply (replaceStack_no_marker chromium_error stack_with_marker).
  - reflexivity.
  - repeat constructor.
Defined.

(** The replaced stack of the example: the message line and the
    helper's frame are gone. *)
Example replaceStack_marker_text :
  replaceStack chromium_error (VString stack_with_marker)
  = Ok (Err.set_stack chromium_error
          (VString (join LF [ str "Error: boom";
                              str "  at foo (file.js:1:2)";
                              str "  at bar (file.js:3:4)" ]))).
Proof. vm_compute. reflexivity. Qed.

Lemma normalizeStack_prefixed_witness :
  normalizeStack chromium_error = Ok chromium_error.
Proof.
  apply (normalizeStack_prefixed chromium_error
           (LF :: join LF [ str "  at foo (cypress://runner/file.js:1:2)";
                            str "  at bar (http://localhost/app.js:3:4)" ])).
  reflexivity.
Defined.

Lemma getSourceStack_entries_witness :
  Forall2 (parsed_from (parse_as frame_foo) sample_join
             (VString (str "project")))
          (split LF two_lines)
          [ MessageLine (str "Error: boom") [];
            FrameLine (Frame.mk (str "foo") (Some (str "file.js"))
                         (Some (str "file.js")) (str "project/file.js")
                         (Some 1%Z) (Num 3) (str "  ")) ] /\
  length [ MessageLine (str "Error: boom") [];
           FrameLine (Frame.mk (str "foo") (Some (str "file.js"))
                        (Some (str "file.js")) (str "project/file.js")
                        (Some 1%Z) (Num 3) (str "  ")) ]
  = S (length (filter (char_eqb LF) two_lines)).
Proof.
  apply (getSourceStack_entries (parse_as frame_foo) no_mapping sample_join sample_large_text
           two_lines (VString (str "project")) _
           (join LF [ str "Error: boom"; str "  at foo (file.js:1:3)" ])).
  vm_compute. reflexivity.
Defined.

Lemma getSourceStack_messages_witness :
  getSourceStack (parse_as frame_foo) no_mapping sample_join sample_large_text
    (VString (str "  indented")) VUndefined
  = Ok (Mapped (map messageEntry (split LF (str "  indented")))
               (join LF (map (fun l => getWhitespace l ++ l)
                             (split LF (str "  indented"))))).
Proof.
  apply (getSourceStack_messages (parse_as frame_foo) no_mapping sample_join sample_large_text
           (str "  indented") VUndefined).
  repeat constructor.
Defined.

Lemma getSourceStack_no_root_witness :
  getSourceStack (parse_as frame_foo) no_mapping sample_join sample_large_text
    (VString two_lines) VUndefined
  = Throw TypeError.
Proof.
  apply (getSourceStack_no_root (parse_as frame_foo) no_mapping sample_join sample_large_text
           two_lines VUndefined (str "  at foo (file.js:1:2)")
           (Details.mk (Some 1%Z) (Some 2%Z) (Some (str "file.js"))
                       (str "foo"))).
  - intros root. discriminate.
  - vm_compute. right. left. reflexivity.
  - vm_compute. reflexivity.
Defined.

Lemma cleanFunctionName_strips_witness :
  cleanFunctionName (Some (str "foo" ++ str "/<")) = str "foo" /\
  cleanFunctionName (Some (str "foo" ++ str "</<")) = str "foo".
Proof.
  apply (cleanFunctionName_strips (str "foo")).
  intros f' H.
  destruct (app_inj_tail (str "fo") f' 111%N 60%N H) as [_ E].
  discriminate.
Defined.

Lemma cleanFunctionName_keeps_witness :
  cleanFunctionName (Some (str "foo")) = str "foo".
Proof.
  apply (cleanFunctionName_keeps (str "foo")).
  intros f H. change (str "/<") with ([47%N] ++ [60%N]) in H.
  rewrite app_assoc in H.
  destruct (app_inj_tail (str "fo") (f ++ [47%N]) 111%N 60%N H) as [_ E].
  discriminate.
Defined.

Lemma getCodeFrame_no_file_witness :
  getCodeFrame sample_contents sample_columns sample_extname sample_lower
    message_only_error
  = Ok None.
Proof.
  apply (getCodeFrame_no_file sample_contents sample_columns sample_extname
           sample_lower message_only_error).
  - reflexivity.
  - intros ls H. inversion H. repeat constructor.
Defined.

Lemma getCodeFrame_first_file_witness :
  exists pre f post fileUrl src,
    Err.parsedStack parsed_error = Some (pre ++ FrameLine f :: post) /\
    Forall (fun l => has_fileUrl l = false) pre /\
    Frame.fileUrl f = Some fileUrl /\
    fileUrl <> [] /\
    sample_contents fileUrl (Frame.relativeFile f) = Some src /\
    src <> [] /\
    str "> it('works')"
    = sample_columns src (Frame.line f) (Frame.column f) /\
    str "> it('works')" <> [] /\
    Some 5%Z = Frame.line f /\
    Num 2 = Frame.column f /\
    Some (str "spec.js") = Frame.relativeFile f /\
    str "project/spec.js" = Frame.absoluteFile f.
Proof.
  apply (getCodeFrame_first_file sample_contents sample_columns
           sample_extname sample_lower parsed_error
           (CodeFrame.mk (Some 5%Z) (Num 2) (Some (str "spec.js"))
              (str "project/spec.js") (str "> it('works')")
              (Some (str "js")))).
  - reflexivity.
  - vm_compute. reflexivity.
Defined.

Lemma reconstructLine_frame_line_witness :
  isFrameLine (reconstructLine sample_large_text (FrameLine frame_spec))
  = true.
Proof.
  apply (reconstructLine_frame_line sample_large_text frame_spec 5 2).
  - reflexivity.
  - reflexivity.
  - intros file H. inversion H. reflexivity.
  - reflexivity.
  - unfold two53. lia.
  - reflexivity.
  - unfold two53. lia.
Defined.
